(** * TaskManager chatbot: a shallow embedding of [main.py]

    The program is a single class [ChatBot] that maps a pair (user id,
    message) to a response with optional follow-up buttons, while keeping
    a cart and a last selected product per user.  The embedding follows the
    source method by method, with the bot object threaded as explicit state.

    Conventions.
    - A Python [str] is a [string] holding its UTF-8 bytes.  Substring
      search, prefix tests and splitting on the ASCII underscore commute
      with the UTF-8 encoding, so they are written on bytes.
    - Python floats are the primitive binary64 floats.
    - A dictionary with fixed keys is a record.  A product dictionary is
      a heap object: it is represented by its address together with its
      fields, which no statement of the program ever writes to.  The
      catalog occupies the first addresses; [dict.copy] takes the next
      free one, which the bot state records.
    - The built-ins [str.lower], [str.strip], [int] and [sum] are
      parameters of the development (class [PyBuiltins]); an instance
      covering ASCII input is provided to run the model. *)

From Stdlib Require Import ZArith String Ascii List Bool Lia Floats.
From Stdlib Require Import DecimalString DecimalPos.
From stdpp Require Import gmap strings list.
Import ListNotations.

Set Warnings "-inexact-float".
#[local] Open Scope string_scope.
#[local] Open Scope Z_scope.

(** ** Strings *)

(** [s.startswith(p)] *)
Fixpoint startswith (p s : string) : bool :=
  match p, s with
  | EmptyString, _ => true
  | String _ _, EmptyString => false
  | String a p', String b s' => Ascii.eqb a b && startswith p' s'
  end.

(** [p in s] for strings: [p] occurs in [s] at some position. *)
Fixpoint contains (p s : string) : bool :=
  startswith p s ||
  match s with
  | EmptyString => false
  | String _ s' => contains p s'
  end.

(** [any(pattern in message for pattern in patterns)] *)
Definition any_in (patterns : list string) (message : string) : bool :=
  existsb (fun pattern => contains pattern message) patterns.

(** [s.split(sep)] for a one-character separator: the list is never
    empty. *)
Fixpoint split (sep : ascii) (s : string) : list string :=
  match s with
  | EmptyString => [EmptyString]
  | String c s' =>
      if Ascii.eqb c sep then EmptyString :: split sep s'
      else match split sep s' with
           | [] => [String c EmptyString]
           | tok :: toks => String c tok :: toks
           end
  end.

(** [sep.join(lines)] *)
Fixpoint join (sep : string) (lines : list string) : string :=
  match lines with
  | [] => ""
  | [l] => l
  | l :: ls => l ++ sep ++ join sep ls
  end.

(** All characters of a string satisfy a test. *)
Fixpoint all_chars (P : ascii -> bool) (s : string) : bool :=
  match s with
  | EmptyString => true
  | String c s' => P c && all_chars P s'
  end.

Definition is_digit (c : ascii) : bool :=
  let n := nat_of_ascii c in ((48 <=? n) && (n <=? 57))%nat.

(** [str(n)] for an integer, as used by the f-strings. *)
Definition str_int (n : Z) : string := NilZero.string_of_int (Z.to_int n).

Definition newline : string := String (ascii_of_nat 10) EmptyString.

(** ** Floats and the [.2f] format *)

(** Nearest integer to [n / d], ties to even, for [0 <= n] and [0 < d]. *)
Definition round_half_even (n d : Z) : Z :=
  let q := n / d in
  let r := n mod d in
  if 2 * r <? d then q
  else if d <? 2 * r then q + 1
  else if Z.even q then q else q + 1.

(** The magnitude [m * 2^e], in hundredths, correctly rounded. *)
Definition hundredths (m : positive) (e : Z) : Z :=
  if 0 <=? e then 100 * Z.pos m * 2 ^ e
  else round_half_even (100 * Z.pos m) (2 ^ (- e)).

Definition digit (n : Z) : ascii := ascii_of_nat (48 + Z.to_nat n).

Definition fixed2 (neg : bool) (c : Z) : string :=
  (if neg then "-" else "") ++ str_int (c / 100) ++ "."
  ++ String (digit (c mod 100 / 10)) (String (digit (c mod 10)) EmptyString).

(** [f"{x:.2f}"]: CPython prints the decimal expansion of the exact binary
    value, correctly rounded to two places (ties to even). *)
Definition format_2f (x : float) : string :=
  match Prim2SF x with
  | S754_zero s => fixed2 s 0
  | S754_finite s m e => fixed2 s (hundredths m e)
  | S754_infinity s => if s then "-inf" else "inf"
  | S754_nan => "nan"
  end.

(** Conversion of a Python int to float in [price * count]: the nearest
    binary64 value.  (Python raises [OverflowError] where this gives an
    infinity, from [2^1024] on; a count is the length of a list at most.) *)
Definition float_of_int (n : Z) : float :=
  SF2Prim (SpecFloat.binary_normalize prec emax n 0 false).

(** Left-to-right binary64 additions from zero: what [sum(xs)] computes
    over floats in CPython up to 3.11. *)
Definition fsum (xs : list float) : float :=
  fold_left PrimFloat.add xs 0%float.

(** ** Python built-ins used by the program *)

Class PyBuiltins := {
  (** [s.lower()] *)
  str_lower : string -> string;
  (** [s.strip()] *)
  str_strip : string -> string;
  (** [int(s)]; [None] stands for [ValueError] *)
  int_of_str : string -> option Z;
  (** [sum(xs)] over floats *)
  float_sum : list float -> float;
  (** [int(str(n)) == n] *)
  int_of_str_int : forall n : Z, 0 <= n < 2 ^ 63 -> int_of_str (str_int n) = Some n;
  (** CPython adds the floats from left to right, and since 3.12 also the
      accumulated rounding errors at the end: up to two floats the result
      is the plain left-to-right sum in every version. *)
  float_sum_short :
    forall xs : list float, (length xs <= 2)%nat -> float_sum xs = fsum xs
}.

(** *** The ASCII fragment of the built-ins *)

Definition ascii_lower (c : ascii) : ascii :=
  let n := nat_of_ascii c in
  if ((65 <=? n) && (n <=? 90))%nat then ascii_of_nat (n + 32) else c.

Fixpoint lower_ascii (s : string) : string :=
  match s with
  | EmptyString => EmptyString
  | String c s' => String (ascii_lower c) (lower_ascii s')
  end.

(** Tab, line feed, vertical tab, form feed, carriage return, the four
    separators 0x1c-0x1f and space. *)
Definition is_space (c : ascii) : bool :=
  let n := nat_of_ascii c in
  (((9 <=? n) && (n <=? 13)) || ((28 <=? n) && (n <=? 32)))%nat.

Fixpoint lstrip (s : string) : string :=
  match s with
  | EmptyString => EmptyString
  | String c s' => if is_space c then lstrip s' else s
  end.

Fixpoint rstrip (s : string) : string :=
  match s with
  | EmptyString => EmptyString
  | String c s' =>
      match rstrip s' with
      | EmptyString => if is_space c then EmptyString else String c EmptyString
      | t => String c t
      end
  end.

Definition strip_ascii (s : string) : string := rstrip (lstrip s).

(** The white space that [int] skips around a numeral: tab, line feed,
    vertical tab, form feed, carriage return and space.  Unlike
    [str.strip], [int] does not skip the separators 0x1c-0x1f of an ASCII
    string. *)
Definition is_space_int (c : ascii) : bool :=
  let n := nat_of_ascii c in
  (((9 <=? n) && (n <=? 13)) || (n =? 32))%nat.

Fixpoint lskip (space : ascii -> bool) (s : string) : string :=
  match s with
  | EmptyString => EmptyString
  | String c s' => if space c then lskip space s' else s
  end.

Fixpoint rskip (space : ascii -> bool) (s : string) : string :=
  match s with
  | EmptyString => EmptyString
  | String c s' =>
      match rskip space s' with
      | EmptyString => if space c then EmptyString else String c EmptyString
      | t => String c t
      end
  end.

(** The longest decimal numeral that [int] converts (the default of
    [sys.set_int_max_str_digits] since CPython 3.11); longer ones raise
    [ValueError]. *)
Definition max_str_digits : nat := 4300.

(** A non-empty run of at most [max_str_digits] decimal digits. *)
Definition digits_of_str (s : string) : option Z :=
  match s with
  | EmptyString => None
  | _ =>
      if (max_str_digits <? String.length s)%nat then None
      else option_map Z.of_uint (NilEmpty.uint_of_string s)
  end.

(** [int(s)] on ASCII input without underscores: surrounding white space,
    an optional sign, decimal digits.  (The program passes [int] a token
    obtained by splitting on the underscore.) *)
Definition int_ascii (s : string) : option Z :=
  match rskip is_space_int (lskip is_space_int s) with
  | String "-" d => option_map Z.opp (digits_of_str d)
  | String "+" d => digits_of_str d
  | d => digits_of_str d
  end.

(** ** Data model *)

(** The fields of a product dictionary. *)
Record Product := mkProduct {
  id : Z;
  name : string;
  price : float
}.

(** A product dictionary as a heap object. *)
Record ProductRef := mkRef {
  addr : nat;
  obj : Product
}.

Record Session := mkSession {
  cart : list ProductRef;
  last_product : option ProductRef;
  state : string
}.

(** The bot: [self.sessions], and the next free address of the heap. *)
Record ChatBot := mkChatBot {
  sessions : gmap string Session;
  next_addr : nat
}.

Record Button := mkButton {
  text : string;
  callback : string
}.

(** The returned dictionary; the key ["buttons"] may be absent. *)
Record Response := mkResponse {
  response : string;
  buttons : option (list Button)
}.

Definition AVAILABLE_PRODUCTS : list ProductRef :=
  [ mkRef 0 (mkProduct 1 "Laptop" 999.99);
    mkRef 1 (mkProduct 2 "Mouse" 29.99);
    mkRef 2 (mkProduct 3 "Keyboard" 79.99);
    mkRef 3 (mkProduct 4 "Monitor" 299.99) ].

(** The first two objects of the catalog. *)
Definition laptop : ProductRef := mkRef 0 (mkProduct 1 "Laptop" 999.99).
Definition mouse : ProductRef := mkRef 1 (mkProduct 2 "Mouse" 29.99).

(** [ChatBot()] *)
Definition new_ChatBot : ChatBot :=
  mkChatBot ∅ (length AVAILABLE_PRODUCTS).

Definition new_session : Session := mkSession [] None "browsing".

(** Writing through the reference [self.sessions[user_id]]. *)
Definition set_session (user_id : string) (s : Session) (self : ChatBot) : ChatBot :=
  mkChatBot (<[user_id := s]> (sessions self)) (next_addr self).

(** [product.copy()]: a new dictionary with the same fields. *)
Definition copy (product : ProductRef) (self : ChatBot) : ProductRef * ChatBot :=
  (mkRef (next_addr self) (obj product),
   mkChatBot (sessions self) (S (next_addr self))).

(** ** The methods of [ChatBot] *)

Section ChatBot.
Context `{PyBuiltins}.

Definition _get_or_create_session (user_id : string) (self : ChatBot)
  : Session * ChatBot :=
  match sessions self !! user_id with
  | Some session => (session, self)
  | None => (new_session, set_session user_id new_session self)
  end.

Definition add_patterns : list string :=
  [ "agregar al carrito"; "add to cart"; "añadir al carrito"; "agregar"; "añadir" ].

Definition _is_add_to_cart_intent (message : string) : bool :=
  any_in add_patterns message.

Definition product_names : list string :=
  map (fun product => str_lower (name (obj product))) AVAILABLE_PRODUCTS.

Definition _is_product_search (message : string) : bool :=
  any_in product_names message.

Definition cart_patterns : list string :=
  [ "carrito"; "cart"; "ver carrito"; "view cart" ].

Definition _is_view_cart_intent (message : string) : bool :=
  any_in cart_patterns message.

Definition find_last_selected_product (user_id : string) (self : ChatBot)
  : option ProductRef * ChatBot :=
  let '(session, self) := _get_or_create_session user_id self in
  (last_product session, self).

Definition _find_product_by_id (product_id : Z) : option ProductRef :=
  List.find (fun product => id (obj product) =? product_id) AVAILABLE_PRODUCTS.

Definition _find_product_by_name (query : string) : option ProductRef :=
  List.find (fun product => contains (str_lower (name (obj product))) (str_lower query))
    AVAILABLE_PRODUCTS.

Definition no_product_selected : Response :=
  mkResponse "❌ No hay producto seleccionado. Por favor, elige un producto primero."
    (Some [ mkButton "Ver productos" "btn_browse" ]).

Definition product_added (product : ProductRef) : Response :=
  mkResponse ("✅ " ++ name (obj product) ++ " agregado al carrito correctamente!")
    (Some [ mkButton "Ver carrito" "btn_view_cart";
            mkButton "Continuar comprando" "btn_browse" ]).

(** [product_id] is tested for truth, so [0] takes the branch of [None].
    The session is a reference: the nested call of
    [find_last_selected_product] returns the same dictionary.  The handler
    of the [try] block is not modelled: appending to a list and copying a
    dictionary do not raise. *)
Definition add_product_to_cart (user_id : string) (product_id : option Z)
    (self : ChatBot) : Response * ChatBot :=
  let '(session, self) := _get_or_create_session user_id self in
  let '(product, self) :=
    match product_id with
    | Some n =>
        if n =? 0 then find_last_selected_product user_id self
        else (_find_product_by_id n, self)
    | None => find_last_selected_product user_id self
    end in
  match product with
  | None => (no_product_selected, self)
  | Some product =>
      let '(item, self) := copy product self in
      let session := mkSession (cart session ++ [item]) (Some product) (state session) in
      (product_added product, set_session user_id session self)
  end.

(** The dictionary [item_counts], in insertion order: name, first item
    with that name, count. *)
Definition ItemCounts := list (string * (ProductRef * nat)).

Fixpoint count_item (item : ProductRef) (item_counts : ItemCounts) : ItemCounts :=
  match item_counts with
  | [] => [ (name (obj item), (item, 1%nat)) ]
  | (key, (first, count)) :: rest =>
      if String.eqb key (name (obj item)) then (key, (first, S count)) :: rest
      else (key, (first, count)) :: count_item item rest
  end.

Definition group_items (cart : list ProductRef) : ItemCounts :=
  fold_left (fun item_counts item => count_item item item_counts) cart [].

Definition item_line (entry : string * (ProductRef * nat)) : string :=
  let '(name, (item, count)) := entry in
  if (1 <? count)%nat then
    "• " ++ name ++ " x" ++ str_int (Z.of_nat count) ++ " - $"
    ++ format_2f (price (obj item) * float_of_int (Z.of_nat count))%float
  else
    "• " ++ name ++ " - $" ++ format_2f (price (obj item)).

Definition total_price (cart : list ProductRef) : float :=
  float_sum (map (fun item => price (obj item)) cart).

Definition cart_summary (cart : list ProductRef) : string :=
  "🛒 Tu carrito (" ++ str_int (Z.of_nat (length cart)) ++ " items):" ++ newline
  ++ join newline (map item_line (group_items cart))
  ++ newline ++ newline ++ "Total: $" ++ format_2f (total_price cart).

Definition empty_cart_view : Response :=
  mkResponse ("🛒 Tu carrito está vacío" ++ newline ++ "¿Quieres ver nuestros productos?")
    (Some [ mkButton "Ver productos" "btn_browse" ]).

Definition send_cart_confirmation_buttons (user_id : string) (self : ChatBot)
  : Response * ChatBot :=
  let '(session, self) := _get_or_create_session user_id self in
  match cart session with
  | [] => (empty_cart_view, self)
  | _ =>
      (mkResponse (cart_summary (cart session))
         (Some [ mkButton "Proceder al pago" "btn_checkout";
                 mkButton "Continuar comprando" "btn_browse";
                 mkButton "Vaciar carrito" "btn_clear_cart" ]),
       self)
  end.

Definition product_not_found : Response :=
  mkResponse "❌ Producto no encontrado. ¿Quieres ver todos los productos disponibles?"
    (Some [ mkButton "Ver productos" "btn_browse" ]).

Definition product_details (found_product : ProductRef) : Response :=
  mkResponse
    ("📱 " ++ name (obj found_product) ++ " - $" ++ format_2f (price (obj found_product))
     ++ newline ++ "¿Te interesa?")
    (Some [ mkButton "Agregar al carrito" ("btn_add_" ++ str_int (id (obj found_product)));
            mkButton "Ver más productos" "btn_browse" ]).

Definition handle_product_selection (user_id query : string) (self : ChatBot)
  : Response * ChatBot :=
  let '(session, self) := _get_or_create_session user_id self in
  match _find_product_by_name query with
  | Some found_product =>
      let session := mkSession (cart session) (Some found_product) (state session) in
      (product_details found_product, set_session user_id session self)
  | None => (product_not_found, self)
  end.

Definition show_products (user_id : string) (self : ChatBot) : Response * ChatBot :=
  (mkResponse
     ("🏪 Productos disponibles:" ++ newline
      ++ "Haz clic en un producto para agregarlo al carrito:")
     (Some (map (fun product =>
                   mkButton (name (obj product) ++ " - $" ++ format_2f (price (obj product)))
                            ("btn_add_" ++ str_int (id (obj product))))
                AVAILABLE_PRODUCTS)),
   self).

Definition cart_cleared : Response :=
  mkResponse "🛒 Carrito vacío correctamente."
    (Some [ mkButton "Ver productos" "btn_browse" ]).

Definition clear_cart (user_id : string) (self : ChatBot) : Response * ChatBot :=
  let '(session, self) := _get_or_create_session user_id self in
  let session := mkSession [] (last_product session) (state session) in
  (cart_cleared, set_session user_id session self).

Definition checkout_empty : Response :=
  mkResponse "❌ No puedes proceder al pago con un carrito vacío."
    (Some [ mkButton "Ver productos" "btn_browse" ]).

Definition checkout_done (total : float) : Response :=
  mkResponse
    ("✅ ¡Compra realizada exitosamente!" ++ newline ++ "Total pagado: $" ++ format_2f total
     ++ newline ++ "¡Gracias por tu compra!")
    (Some [ mkButton "Comprar más" "btn_browse" ]).

Definition process_checkout (user_id : string) (self : ChatBot) : Response * ChatBot :=
  let '(session, self) := _get_or_create_session user_id self in
  match cart session with
  | [] => (checkout_empty, self)
  | _ =>
      let total := total_price (cart session) in
      let session := mkSession [] None (state session) in
      (checkout_done total, set_session user_id session self)
  end.

Definition button_error : Response :=
  mkResponse "❌ Error en el botón. Intenta de nuevo." None.

Definition button_not_recognized : Response :=
  mkResponse "❌ Botón no reconocido" None.

(** The [try] block catches [IndexError] (no last token) and [ValueError]
    (the token is not an integer). *)
Definition handle_button_press (user_id button_data : string) (self : ChatBot)
  : Response * ChatBot :=
  let '(session, self) := _get_or_create_session user_id self in
  if startswith "btn_add_" button_data then
    match last (split "_" button_data) with
    | None => (button_error, self)
    | Some token =>
        match int_of_str token with
        | None => (button_error, self)
        | Some product_id => add_product_to_cart user_id (Some product_id) self
        end
    end
  else if String.eqb button_data "btn_view_cart" then
    send_cart_confirmation_buttons user_id self
  else if String.eqb button_data "btn_browse" then show_products user_id self
  else if String.eqb button_data "btn_clear_cart" then clear_cart user_id self
  else if String.eqb button_data "btn_checkout" then process_checkout user_id self
  else (button_not_recognized, self).

Definition not_understood : Response :=
  mkResponse "No entiendo. ¿Puedes ser más específico?" None.

Definition handle_message (user_id message : string) (self : ChatBot)
  : Response * ChatBot :=
  let '(session, self) := _get_or_create_session user_id self in
  let message_lower := str_strip (str_lower message) in
  if startswith "btn_" message then handle_button_press user_id message self
  else if _is_add_to_cart_intent message_lower then add_product_to_cart user_id None self
  else if _is_product_search message_lower then
    handle_product_selection user_id message_lower self
  else if _is_view_cart_intent message_lower then
    send_cart_confirmation_buttons user_id self
  else (not_understood, self).

(** A conversation: messages handled one after the other. *)
Fixpoint run (messages : list (string * string)) (self : ChatBot) : ChatBot :=
  match messages with
  | [] => self
  | (user_id, message) :: rest => run rest (snd (handle_message user_id message self))
  end.

(** *** Vocabulary of the specification *)

(** The session of a user as the methods see it, and the bot once that
    session exists. *)
Definition session_of (user_id : string) (self : ChatBot) : Session :=
  fst (_get_or_create_session user_id self).

Definition ensure (user_id : string) (self : ChatBot) : ChatBot :=
  snd (_get_or_create_session user_id self).

(** The normalized form of a message: lowercased, then trimmed. *)
Definition normalize (message : string) : string :=
  str_strip (str_lower message).

(** A free-text message asking to add the selected product. *)
Definition add_text (message : string) : Prop :=
  startswith "btn_" message = false /\
  _is_add_to_cart_intent (normalize message) = true.

(** The callback of the add button of a product. *)
Definition add_button (product : ProductRef) : string :=
  "btn_add_" ++ str_int (id (obj product)).

(** The routes of the dispatcher for free text, and the route of a
    normalized message: the first intent that matches, in the order
    add-to-cart, product search, view cart. *)
Inductive Route := RouteAdd | RouteSearch | RouteViewCart | RouteUnknown.

Definition route (normalized : string) : Route :=
  if _is_add_to_cart_intent normalized then RouteAdd
  else if _is_product_search normalized then RouteSearch
  else if _is_view_cart_intent normalized then RouteViewCart
  else RouteUnknown.

Definition dispatch (r : Route) (user_id normalized : string) (self : ChatBot)
  : Response * ChatBot :=
  match r with
  | RouteAdd => add_product_to_cart user_id None self
  | RouteSearch => handle_product_selection user_id normalized self
  | RouteViewCart => send_cart_confirmation_buttons user_id self
  | RouteUnknown => (not_understood, ensure user_id self)
  end.

(** A message that can set the last selected product of its sender: an add
    button, or free text routed to the product search. *)
Definition selects_product (message : string) : bool :=
  if startswith "btn_" message then startswith "btn_add_" message
  else match route (normalize message) with
       | RouteSearch => true
       | _ => false
       end.

End ChatBot.

(** The bots that conversations lead to, from a new bot. *)
Definition reachable `{PyBuiltins} (self : ChatBot) : Prop :=
  exists messages, self = run messages new_ChatBot.

(** What a call for [user_id] may do to the bot: allocate, write the session
    of [user_id], and select a catalog product or keep the selection. *)
Definition step_post (user_id : string) (self self' : ChatBot) : Prop :=
  (next_addr self <= next_addr self')%nat /\
  sessions self' = <[user_id := session_of user_id self']> (sessions self) /\
  (forall p, last_product (session_of user_id self') = Some p ->
             p ∈ AVAILABLE_PRODUCTS \/ last_product (session_of user_id self) = Some p) /\
  (forall item, item ∈ cart (session_of user_id self') ->
                item ∈ cart (session_of user_id self) \/
                addr item = next_addr self /\ (next_addr self < next_addr self')%nat /\
                exists p, last_product (session_of user_id self') = Some p /\
                          obj item = obj p).

(** Every cart entry is an object allocated after the catalog. *)
Definition carts_allocated (self : ChatBot) : Prop :=
  (length AVAILABLE_PRODUCTS <= next_addr self)%nat /\
  forall user_id session item,
    sessions self !! user_id = Some session ->
    item ∈ cart session ->
    (length AVAILABLE_PRODUCTS <= addr item < next_addr self)%nat.

(** Every selected product is an object of the catalog. *)
Definition selection_in_catalog (self : ChatBot) : Prop :=
  forall user_id session p,
    sessions self !! user_id = Some session ->
    last_product session = Some p -> p ∈ AVAILABLE_PRODUCTS.










(** ** The command-line loop [main]

    Standard input is the list of its lines.  [print(x)] writes [x] and a
    line feed, [input(prompt)] writes the prompt and returns the next line.
    When the lines are used up [input] raises [EOFError]; the handler of
    [Exception] prints it and the loop goes on asking, for ever: the model
    stops there with [EndOfInput].  Interrupts from the keyboard are not
    modelled. *)

Definition print (x : string) : string := x ++ newline.

Definition prompt : string := newline ++ "> ".

Definition quit_words : list string := [ "quit"; "salir"; "exit" ].

Inductive Ending := Quit | EndOfInput.

Section Main.
Context `{PyBuiltins}.

(** [for i, btn in enumerate(response["buttons"], 1): print(...)] *)
Definition print_buttons (btns : list Button) : list string :=
  imap (fun i btn =>
          print ("  " ++ str_int (Z.of_nat (S i)) ++ ". " ++ text btn
                 ++ " (" ++ callback btn ++ ")"))
       btns.

Definition print_response (r : Response) : list string :=
  print (newline ++ "🤖 Bot: " ++ response r)
  :: match buttons r with
     | Some btns => print (newline ++ "Opciones disponibles:") :: print_buttons btns
     | None => []
     end.

Fixpoint main_loop (lines : list string) (bot : ChatBot)
  : list string * ChatBot * Ending :=
  match lines with
  | [] => ([prompt], bot, EndOfInput)
  | line :: rest =>
      let message := str_strip line in
      if existsb (String.eqb (str_lower message)) quit_words then
        ([prompt; print "¡Hasta luego!"], bot, Quit)
      else
        match message with
        | EmptyString =>
            let '(out, bot, ending) := main_loop rest bot in
            (prompt :: out, bot, ending)
        | _ =>
            let '(r, bot) := handle_message "test_user" message bot in
            let '(out, bot, ending) := main_loop rest bot in
            (prompt :: (print_response r ++ out)%list, bot, ending)
        end
  end.

Definition main (lines : list string) : list string * ChatBot * Ending :=
  let '(out, bot, ending) := main_loop lines new_ChatBot in
  (print "🤖 Chatbot mejorado iniciado. Escribe 'quit' para salir."
   :: print "Prueba comandos como: 'laptop', 'agregar al carrito', 'carrito'"
   :: out,
   bot, ending).

(** A line that ends the loop, and the messages that the lines before the
    first such line send to the bot. *)
Definition quits (line : string) : bool :=
  existsb (String.eqb (str_lower (str_strip line))) quit_words.

Fixpoint messages_of (lines : list string) : list (string * string) :=
  match lines with
  | [] => []
  | line :: rest =>
      if quits line then []
      else match str_strip line with
           | EmptyString => messages_of rest
           | message => ("test_user", message) :: messages_of rest
           end
  end.

End Main.

(** ** More vocabulary *)

(** The callbacks that a response offers. *)
Definition offered (r : Response) : list string :=
  match buttons r with
  | Some btns => map callback btns
  | None => []
  end.

Definition known_callbacks : list string :=
  [ "btn_view_cart"; "btn_browse"; "btn_clear_cart"; "btn_checkout" ].

(** What a call for [user_id] may do to the cart of [user_id]: nothing,
    empty it, or append a copy of the product that it selects. *)
Definition step_cart (user_id : string) (self self' : ChatBot) : Prop :=
  let session := session_of user_id self in
  let session' := session_of user_id self' in
  state session' = state session /\
  (cart session' = cart session /\ next_addr self' = next_addr self \/
   cart session' = [] /\ next_addr self' = next_addr self \/
   exists p, (cart session' = cart session ++ [mkRef (next_addr self) (obj p)])%list /\
             last_product session' = Some p /\
             next_addr self' = S (next_addr self)).

(** No object is in two places of the carts. *)
Definition addresses_distinct (self : ChatBot) : Prop :=
  forall u v s t (i j : nat) x y,
    sessions self !! u = Some s -> sessions self !! v = Some t ->
    cart s !! i = Some x -> cart t !! j = Some y ->
    addr x = addr y -> u = v /\ i = j.

(** The invariant behind it: entries are allocated after the catalog,
    differ within a cart and differ between carts. *)
Definition carts_separate (self : ChatBot) : Prop :=
  carts_allocated self /\
  (forall u s, sessions self !! u = Some s -> NoDup (map addr (cart s))) /\
  (forall u v s t x y,
     u <> v -> sessions self !! u = Some s -> sessions self !! v = Some t ->
     x ∈ cart s -> y ∈ cart t -> addr x <> addr y).

(** The users that sent a message. *)
Definition senders (messages : list (string * string)) : gset string :=
  list_to_set (map fst messages).

(** The replies of [handle_message] to a message, one constructor per
    [return] of the program. *)
Inductive Reply `{PyBuiltins} (message : string) : Response -> Prop :=
  | reply_not_understood : Reply message not_understood
  | reply_button_error : Reply message button_error
  | reply_button_not_recognized : Reply message button_not_recognized
  | reply_no_product_selected : Reply message no_product_selected
  | reply_product_added p : Reply message (product_added p)
  | reply_empty_cart_view : Reply message empty_cart_view
  | reply_cart_summary cart :
      cart <> [] ->
      Reply message
        (mkResponse (cart_summary cart)
           (Some [ mkButton "Proceder al pago" "btn_checkout";
                   mkButton "Continuar comprando" "btn_browse";
                   mkButton "Vaciar carrito" "btn_clear_cart" ]))
  | reply_product_details p :
      p ∈ AVAILABLE_PRODUCTS -> Reply message (product_details p)
  | reply_product_not_found :
      _is_product_search (normalize message) = true ->
      _find_product_by_name (normalize message) = None ->
      Reply message product_not_found
  | reply_products u self : Reply message (fst (show_products u self))
  | reply_cart_cleared : Reply message cart_cleared
  | reply_checkout_empty : Reply message checkout_empty
  | reply_checkout_done total : Reply message (checkout_done total).

(** * Properties *)

(** ** The ASCII built-ins read decimal numerals back *)

Lemma string_of_uint_digits d : all_chars is_digit (NilEmpty.string_of_uint d) = true.
Proof. induction d; simpl; auto. Qed.

Lemma digit_not_space c : is_digit c = true -> is_space_int c = false.
Proof.
  unfold is_digit, is_space_int. intros Hd.
  apply andb_true_iff in Hd as [Hlo Hhi].
  apply Nat.leb_le in Hlo. apply Nat.leb_le in Hhi.
  apply orb_false_iff; split;
    [apply andb_false_iff; right; apply Nat.leb_gt | apply Nat.eqb_neq]; lia.
Qed.

Lemma lskip_digits s : all_chars is_digit s = true -> lskip is_space_int s = s.
Proof.
  destruct s as [|c s]; simpl; [reflexivity|].
  intros Hs. apply andb_true_iff in Hs as [Hc _].
  now rewrite (digit_not_space c Hc).
Qed.

Lemma rskip_digits s : all_chars is_digit s = true -> rskip is_space_int s = s.
Proof.
  induction s as [|c s IH]; simpl; [reflexivity|].
  intros Hs. apply andb_true_iff in Hs as [Hc Hs].
  rewrite (IH Hs), (digit_not_space c Hc). now destruct s.
Qed.

(** A decimal numeral has at most as many digits as the number has bits. *)
Lemma nb_digits_double d :
  (Decimal.nb_digits (Decimal.Little.double d) <= S (Decimal.nb_digits d))%nat /\
  (Decimal.nb_digits (Decimal.Little.succ_double d) <= S (Decimal.nb_digits d))%nat.
Proof. induction d; simpl; lia. Qed.

Lemma nb_digits_to_little_uint p :
  (Decimal.nb_digits (Pos.to_little_uint p) <= Pos.size_nat p)%nat.
Proof.
  induction p as [p IH|p IH|]; simpl; [| |lia].
  - pose proof (proj2 (nb_digits_double (Pos.to_little_uint p))). lia.
  - pose proof (proj1 (nb_digits_double (Pos.to_little_uint p))). lia.
Qed.

Lemma length_string_of_uint d :
  String.length (NilEmpty.string_of_uint d) = Decimal.nb_digits d.
Proof. induction d; simpl; congruence. Qed.

Lemma length_to_uint p :
  Z.pos p < 2 ^ 63 ->
  (String.length (NilEmpty.string_of_uint (Pos.to_uint p)) <= 64)%nat.
Proof.
  intros Hp. rewrite length_string_of_uint.
  unfold Pos.to_uint. rewrite DecimalFacts.nb_digits_rev.
  pose proof (nb_digits_to_little_uint p) as Hsize.
  assert (Hmono : (Pos.size_nat p <= Pos.size_nat (2 ^ 63))%nat)
    by (apply Pos.size_nat_monotone; lia).
  change (Pos.size_nat (2 ^ 63)) with 64%nat in Hmono. lia.
Qed.

Lemma int_ascii_digits d :
  d <> Decimal.Nil ->
  (String.length (NilEmpty.string_of_uint d) <= max_str_digits)%nat ->
  int_ascii (NilEmpty.string_of_uint d) = Some (Z.of_uint d).
Proof.
  intros Hd Hlen. unfold int_ascii.
  rewrite (lskip_digits _ (string_of_uint_digits d)).
  rewrite (rskip_digits _ (string_of_uint_digits d)).
  pose proof (NilEmpty.usu d) as Hu.
  apply Nat.ltb_ge in Hlen.
  destruct d; try congruence; unfold digits_of_str;
    cbn [NilEmpty.string_of_uint] in *; rewrite Hlen, Hu; reflexivity.
Qed.

Lemma int_ascii_str_int n : 0 <= n < 2 ^ 63 -> int_ascii (str_int n) = Some n.
Proof.
  intros [Hn Hmax]. destruct n as [|p|p]; [reflexivity| |lia].
  unfold str_int. simpl.
  pose proof (DecimalPos.Unsigned.to_uint_nonnil p) as Hnil.
  pose proof (length_to_uint p Hmax) as Hlen.
  replace (NilZero.string_of_uint (Pos.to_uint p))
    with (NilEmpty.string_of_uint (Pos.to_uint p))
    by (destruct (Pos.to_uint p); congruence || reflexivity).
  rewrite (int_ascii_digits _ Hnil) by (unfold max_str_digits; lia).
  unfold Z.of_uint. now rewrite DecimalPos.Unsigned.of_to.
Qed.

#[export] Instance ascii_builtins : PyBuiltins := {|
  str_lower := lower_ascii;
  str_strip := strip_ascii;
  int_of_str := int_ascii;
  float_sum := fsum;
  int_of_str_int := int_ascii_str_int;
  float_sum_short := fun xs _ => eq_refl
|}.

(** ** The session store *)

Lemma goc_pair u self :
  _get_or_create_session u self = (session_of u self, ensure u self).
Proof. unfold session_of, ensure. now destruct (_get_or_create_session u self). Qed.

Lemma session_of_present u self s :
  sessions self !! u = Some s -> session_of u self = s.
Proof. intros Hs. unfold session_of, _get_or_create_session. now rewrite Hs. Qed.

Lemma session_of_absent u self :
  sessions self !! u = None -> session_of u self = new_session.
Proof. intros Hs. unfold session_of, _get_or_create_session. now rewrite Hs. Qed.

Lemma ensure_present u self s :
  sessions self !! u = Some s -> ensure u self = self.
Proof. intros Hs. unfold ensure, _get_or_create_session. now rewrite Hs. Qed.

Lemma sessions_ensure u self :
  sessions (ensure u self) = <[u := session_of u self]> (sessions self).
Proof.
  unfold ensure, session_of, _get_or_create_session.
  destruct (sessions self !! u) as [s|] eqn:Hs; simpl; [|reflexivity].
  symmetry. now apply insert_id.
Qed.

Lemma lookup_ensure u self :
  sessions (ensure u self) !! u = Some (session_of u self).
Proof. rewrite sessions_ensure. apply lookup_insert_eq. Qed.

Lemma lookup_ensure_ne u v self :
  u <> v -> sessions (ensure u self) !! v = sessions self !! v.
Proof. intros Huv. rewrite sessions_ensure. now apply lookup_insert_ne. Qed.

Lemma next_addr_ensure u self : next_addr (ensure u self) = next_addr self.
Proof.
  unfold ensure, _get_or_create_session.
  now destruct (sessions self !! u).
Qed.

Lemma session_of_ensure u self : session_of u (ensure u self) = session_of u self.
Proof. apply session_of_present, lookup_ensure. Qed.

Lemma ensure_ensure u self : ensure u (ensure u self) = ensure u self.
Proof. eapply ensure_present, lookup_ensure. Qed.

Lemma goc_ensure u self :
  _get_or_create_session u (ensure u self) = (session_of u self, ensure u self).
Proof. now rewrite goc_pair, session_of_ensure, ensure_ensure. Qed.

Lemma session_of_written u s m n :
  session_of u (mkChatBot (<[u := s]> m) n) = s.
Proof. apply session_of_present. simpl. apply lookup_insert_eq. Qed.

Lemma written_over_ensure u s self n :
  mkChatBot (<[u := s]> (sessions (ensure u self))) n
  = mkChatBot (<[u := s]> (sessions self)) n.
Proof. rewrite sessions_ensure. now rewrite insert_insert_eq. Qed.

(** ** The methods, one equation each

    Every method starts by fetching the session of its user; the
    equations below give its result from [session_of] and the bot it was
    called on. *)

Section Equations.
Context `{PyBuiltins}.

Lemma find_last_selected_product_eq u self :
  find_last_selected_product u self = (last_product (session_of u self), ensure u self).
Proof. unfold find_last_selected_product. now rewrite goc_pair. Qed.

Lemma add_product_to_cart_eq u product_id self :
  add_product_to_cart u product_id self =
  let session := session_of u self in
  let product :=
    match product_id with
    | Some n => if n =? 0 then last_product session else _find_product_by_id n
    | None => last_product session
    end in
  match product with
  | None => (no_product_selected, ensure u self)
  | Some product =>
      (product_added product,
       mkChatBot
         (<[u := mkSession (cart session ++ [mkRef (next_addr self) (obj product)])
                           (Some product) (state session)]> (sessions self))
         (S (next_addr self)))
  end.
Proof.
  unfold add_product_to_cart. rewrite goc_pair.
  rewrite find_last_selected_product_eq, session_of_ensure, ensure_ensure.
  cbv zeta.
  assert (Hstep : forall product : option ProductRef,
    match product with
    | None => (no_product_selected, ensure u self)
    | Some product =>
        let '(item, self0) := copy product (ensure u self) in
        (product_added product,
         set_session u
           (mkSession (cart (session_of u self) ++ [item]) (Some product)
              (state (session_of u self))) self0)
    end =
    match product with
    | None => (no_product_selected, ensure u self)
    | Some product =>
        (product_added product,
         mkChatBot
           (<[u := mkSession
                     (cart (session_of u self) ++ [mkRef (next_addr self) (obj product)])
                     (Some product) (state (session_of u self))]> (sessions self))
           (S (next_addr self)))
    end).
  { intros [product|]; [|reflexivity].
    unfold copy, set_session. simpl.
    now rewrite next_addr_ensure, written_over_ensure. }
  destruct product_id as [n|]; [destruct (n =? 0)|]; apply Hstep.
Qed.

Lemma send_cart_confirmation_buttons_eq u self :
  send_cart_confirmation_buttons u self =
  (match cart (session_of u self) with
   | [] => empty_cart_view
   | _ =>
       mkResponse (cart_summary (cart (session_of u self)))
         (Some [ mkButton "Proceder al pago" "btn_checkout";
                 mkButton "Continuar comprando" "btn_browse";
                 mkButton "Vaciar carrito" "btn_clear_cart" ])
   end, ensure u self).
Proof.
  unfold send_cart_confirmation_buttons. rewrite goc_pair.
  now destruct (cart (session_of u self)).
Qed.

Lemma handle_product_selection_eq u query self :
  handle_product_selection u query self =
  match _find_product_by_name query with
  | Some found_product =>
      (product_details found_product,
       mkChatBot
         (<[u := mkSession (cart (session_of u self)) (Some found_product)
                           (state (session_of u self))]> (sessions self))
         (next_addr self))
  | None => (product_not_found, ensure u self)
  end.
Proof.
  unfold handle_product_selection. rewrite goc_pair.
  destruct (_find_product_by_name query); [|reflexivity].
  unfold set_session. now rewrite next_addr_ensure, written_over_ensure.
Qed.

Lemma clear_cart_eq u self :
  clear_cart u self =
  (cart_cleared,
   mkChatBot
     (<[u := mkSession [] (last_product (session_of u self)) (state (session_of u self))]>
        (sessions self))
     (next_addr self)).
Proof.
  unfold clear_cart. rewrite goc_pair.
  unfold set_session. now rewrite next_addr_ensure, written_over_ensure.
Qed.

Lemma process_checkout_eq u self :
  process_checkout u self =
  match cart (session_of u self) with
  | [] => (checkout_empty, ensure u self)
  | _ =>
      (checkout_done (total_price (cart (session_of u self))),
       mkChatBot (<[u := mkSession [] None (state (session_of u self))]> (sessions self))
                 (next_addr self))
  end.
Proof.
  unfold process_checkout. rewrite goc_pair.
  destruct (cart (session_of u self)); [reflexivity|].
  unfold set_session. now rewrite next_addr_ensure, written_over_ensure.
Qed.

(** Fetching the session first changes nothing for a method that fetches
    it itself. *)
Lemma add_product_to_cart_ensure u product_id self :
  add_product_to_cart u product_id (ensure u self) = add_product_to_cart u product_id self.
Proof.
  rewrite !add_product_to_cart_eq. cbv zeta.
  rewrite session_of_ensure, ensure_ensure, next_addr_ensure.
  match goal with |- match ?product with _ => _ end = _ => destruct product end;
    [|reflexivity].
  now rewrite written_over_ensure.
Qed.

Lemma send_cart_confirmation_buttons_ensure u self :
  send_cart_confirmation_buttons u (ensure u self) = send_cart_confirmation_buttons u self.
Proof.
  rewrite !send_cart_confirmation_buttons_eq.
  now rewrite session_of_ensure, ensure_ensure.
Qed.

Lemma handle_product_selection_ensure u query self :
  handle_product_selection u query (ensure u self) = handle_product_selection u query self.
Proof.
  rewrite !handle_product_selection_eq.
  rewrite session_of_ensure, ensure_ensure, next_addr_ensure.
  destruct (_find_product_by_name query); [|reflexivity].
  now rewrite written_over_ensure.
Qed.

Lemma clear_cart_ensure u self : clear_cart u (ensure u self) = clear_cart u self.
Proof.
  rewrite !clear_cart_eq.
  now rewrite session_of_ensure, next_addr_ensure, written_over_ensure.
Qed.

Lemma process_checkout_ensure u self :
  process_checkout u (ensure u self) = process_checkout u self.
Proof.
  rewrite !process_checkout_eq.
  rewrite session_of_ensure, ensure_ensure, next_addr_ensure.
  destruct (cart (session_of u self)); [reflexivity|].
  now rewrite written_over_ensure.
Qed.

Lemma handle_button_press_eq u button_data self :
  handle_button_press u button_data self =
  if startswith "btn_add_" button_data then
    match last (split "_" button_data) with
    | None => (button_error, ensure u self)
    | Some token =>
        match int_of_str token with
        | None => (button_error, ensure u self)
        | Some product_id => add_product_to_cart u (Some product_id) self
        end
    end
  else if String.eqb button_data "btn_view_cart" then
    send_cart_confirmation_buttons u self
  else if String.eqb button_data "btn_browse" then show_products u (ensure u self)
  else if String.eqb button_data "btn_clear_cart" then clear_cart u self
  else if String.eqb button_data "btn_checkout" then process_checkout u self
  else (button_not_recognized, ensure u self).
Proof.
  unfold handle_button_press. rewrite goc_pair.
  destruct (startswith "btn_add_" button_data).
  - destruct (last (split "_" button_data)) as [token|]; [|reflexivity].
    destruct (int_of_str token); [|reflexivity].
    apply add_product_to_cart_ensure.
  - now rewrite send_cart_confirmation_buttons_ensure, clear_cart_ensure,
      process_checkout_ensure.
Qed.

Lemma handle_button_press_ensure u button_data self :
  handle_button_press u button_data (ensure u self) = handle_button_press u button_data self.
Proof.
  rewrite !handle_button_press_eq. rewrite ensure_ensure.
  destruct (startswith "btn_add_" button_data).
  - destruct (last (split "_" button_data)) as [token|]; [|reflexivity].
    destruct (int_of_str token); [|reflexivity].
    apply add_product_to_cart_ensure.
  - now rewrite send_cart_confirmation_buttons_ensure, clear_cart_ensure,
      process_checkout_ensure.
Qed.

Lemma handle_message_eq u message self :
  handle_message u message self =
  if startswith "btn_" message then handle_button_press u message self
  else dispatch (route (normalize message)) u (normalize message) self.
Proof.
  unfold handle_message. rewrite goc_pair.
  rewrite handle_button_press_ensure, add_product_to_cart_ensure,
    handle_product_selection_ensure, send_cart_confirmation_buttons_ensure.
  unfold dispatch, route, normalize.
  destruct (startswith "btn_" message); [reflexivity|].
  destruct (_is_add_to_cart_intent _); [reflexivity|].
  destruct (_is_product_search _); [reflexivity|].
  now destruct (_is_view_cart_intent _).
Qed.

End Equations.

(** ** The catalog *)

Lemma catalog_cases (P : ProductRef -> Prop) :
  Forall P AVAILABLE_PRODUCTS -> forall p, p ∈ AVAILABLE_PRODUCTS -> P p.
Proof. intros HP p Hp. now apply (proj1 (Forall_forall P _) HP). Qed.

Lemma find_by_id_in_catalog n p : _find_product_by_id n = Some p -> p ∈ AVAILABLE_PRODUCTS.
Proof.
  unfold _find_product_by_id. intros Hf.
  apply find_some in Hf as [Hin _]. now apply list_elem_of_In.
Qed.

(** Catalog ids are unique and positive: looking a product up by its own
    id returns that very object. *)
Lemma find_by_own_id p :
  p ∈ AVAILABLE_PRODUCTS ->
  0 < id (obj p) < 2 ^ 63 /\ _find_product_by_id (id (obj p)) = Some p.
Proof.
  revert p. apply catalog_cases.
  repeat constructor; vm_compute; congruence.
Qed.

(** The callback of an add button is recognized as a button, as an add
    button, and ends with the decimal numeral of the id. *)
Lemma add_button_shape p :
  p ∈ AVAILABLE_PRODUCTS ->
  startswith "btn_" (add_button p) = true /\
  startswith "btn_add_" (add_button p) = true /\
  last (split "_" (add_button p)) = Some (str_int (id (obj p))).
Proof.
  revert p. apply catalog_cases.
  repeat constructor; vm_compute; reflexivity.
Qed.

Section AddAndCheckout.
Context `{PyBuiltins}.

(** The add button of a catalog product adds that product, whatever the
    session holds. *)
Lemma handle_add_button u p self :
  p ∈ AVAILABLE_PRODUCTS ->
  handle_message u (add_button p) self
  = add_product_to_cart u (Some (id (obj p))) self /\
  handle_message u (add_button p) self
  = (product_added p,
     mkChatBot
       (<[u := mkSession (cart (session_of u self) ++ [mkRef (next_addr self) (obj p)])
                         (Some p) (state (session_of u self))]> (sessions self))
       (S (next_addr self))).
Proof.
  intros Hp.
  destruct (add_button_shape p Hp) as (Hbtn & Hadd & Htok).
  destruct (find_by_own_id p Hp) as (Hid & Hfind).
  assert (Hcall : handle_message u (add_button p) self
                  = add_product_to_cart u (Some (id (obj p))) self).
  { rewrite handle_message_eq, Hbtn, handle_button_press_eq, Hadd, Htok.
    now rewrite int_of_str_int by lia. }
  split; [exact Hcall|].
  rewrite Hcall, add_product_to_cart_eq. cbv zeta.
  replace (id (obj p) =? 0) with false by (symmetry; apply Z.eqb_neq; lia).
  now rewrite Hfind.
Qed.

(** An add-to-cart text adds the last selected product. *)
Lemma handle_add_text u message p self :
  add_text message ->
  last_product (session_of u self) = Some p ->
  handle_message u message self = add_product_to_cart u None self /\
  handle_message u message self
  = (product_added p,
     mkChatBot
       (<[u := mkSession (cart (session_of u self) ++ [mkRef (next_addr self) (obj p)])
                         (Some p) (state (session_of u self))]> (sessions self))
       (S (next_addr self))).
Proof.
  intros [Hbtn Hadd] Hlast.
  assert (Hcall : handle_message u message self = add_product_to_cart u None self).
  { rewrite handle_message_eq, Hbtn. unfold route. now rewrite Hadd. }
  split; [exact Hcall|].
  rewrite Hcall, add_product_to_cart_eq. cbv zeta. now rewrite Hlast.
Qed.

(** C1. Path equivalence: when the last selected product of a user is the
    catalog product [p], an add-to-cart text message and the button
    callback [btn_add_<p.id>] both go through [add_product_to_cart] and
    return the same response string and the same buttons. *)
Theorem add_paths_agree (u message : string) (p : ProductRef) (self self' : ChatBot) :
  p ∈ AVAILABLE_PRODUCTS ->
  last_product (session_of u self) = Some p ->
  add_text message ->
  let by_text := handle_message u message self in
  let by_button := handle_message u (add_button p) self' in
  by_text = add_product_to_cart u None self /\
  by_button = add_product_to_cart u (Some (id (obj p))) self' /\
  response (fst by_text) = response (fst by_button) /\
  buttons (fst by_text) = buttons (fst by_button) /\
  response (fst by_text) = "✅ " ++ name (obj p) ++ " agregado al carrito correctamente!".
Proof.
  intros Hp Hlast Htext. cbv zeta.
  destruct (handle_add_text u message p self Htext Hlast) as [Ht1 Ht2].
  destruct (handle_add_button u p self' Hp) as [Hb1 Hb2].
  split; [exact Ht1|]. split; [exact Hb1|].
  rewrite Ht2, Hb2. now repeat split.
Qed.


(** Add by id [0]: the id is taken as absent and the last selected product
    is added. *)
Lemma add_by_id_zero u self :
  add_product_to_cart u (Some 0) self = add_product_to_cart u None self.
Proof. now rewrite !add_product_to_cart_eq. Qed.

(** C3. Checkout: the failure outcome is returned exactly when the cart is
    empty, and then the session is as before; on a non-empty cart the
    response reports the sum of the prices of the cart entries, and
    afterwards the cart is empty and no product is selected. *)
Theorem checkout_contract (u : string) (self : ChatBot) :
  let session := session_of u self in
  let result := process_checkout u self in
  let after := session_of u (snd result) in
  (fst result = checkout_empty <-> cart session = []) /\
  (cart session = [] ->
     response (fst result) = "❌ No puedes proceder al pago con un carrito vacío." /\
     after = session /\
     snd result = ensure u self /\
     (forall s, sessions self !! u = Some s -> snd result = self)) /\
  (cart session <> [] ->
     response (fst result)
     = "✅ ¡Compra realizada exitosamente!" ++ newline ++ "Total pagado: $"
       ++ format_2f (float_sum (map (fun item => price (obj item)) (cart session)))
       ++ newline ++ "¡Gracias por tu compra!" /\
     cart after = [] /\
     last_product after = None).
Proof.
  cbv zeta. rewrite process_checkout_eq.
  destruct (cart (session_of u self)) as [|item items] eqn:Hcart.
  - split; [tauto|]. split; [|congruence].
    intros _. simpl. split; [reflexivity|].
    split; [apply session_of_ensure|]. split; [reflexivity|].
    intros s Hs. now apply ensure_present with s.
  - split; [|split; [congruence|]].
    + split; [|congruence]. intros Heq. apply (f_equal buttons) in Heq.
      simpl in Heq. discriminate Heq.
    + intros _. simpl. rewrite session_of_written. now repeat split.
Qed.

End AddAndCheckout.

(** ** Frame properties: what a call leaves alone *)

Lemma startswith_app_l p q s : startswith (p ++ q) s = true -> startswith p s = true.
Proof.
  revert s. induction p as [|a p IH]; intros s; simpl; [reflexivity|].
  destruct s as [|b s]; [discriminate|].
  intros Hs. apply andb_true_iff in Hs as [Hab Hs].
  rewrite Hab. simpl. now apply IH.
Qed.

Lemma add_prefix_is_button message :
  startswith "btn_add_" message = true -> startswith "btn_" message = true.
Proof. apply (startswith_app_l "btn_" "add_"). Qed.

Ltac other_user :=
  simpl; first [ now apply lookup_ensure_ne | now apply lookup_insert_ne | reflexivity ].

Section Frame.
Context `{PyBuiltins}.
Variables (A B : string) (self : ChatBot).
Hypothesis HAB : A <> B.

Lemma add_product_to_cart_frame product_id :
  sessions (snd (add_product_to_cart A product_id self)) !! B = sessions self !! B.
Proof.
  rewrite add_product_to_cart_eq. cbv zeta.
  match goal with |- sessions (snd (match ?product with _ => _ end)) !! _ = _ =>
    destruct product end;
    other_user.
Qed.

Lemma send_cart_confirmation_buttons_frame :
  sessions (snd (send_cart_confirmation_buttons A self)) !! B = sessions self !! B.
Proof. rewrite send_cart_confirmation_buttons_eq. other_user. Qed.

Lemma handle_product_selection_frame query :
  sessions (snd (handle_product_selection A query self)) !! B = sessions self !! B.
Proof.
  rewrite handle_product_selection_eq.
  destruct (_find_product_by_name query); other_user.
Qed.

Lemma clear_cart_frame :
  sessions (snd (clear_cart A self)) !! B = sessions self !! B.
Proof. rewrite clear_cart_eq. other_user. Qed.

Lemma process_checkout_frame :
  sessions (snd (process_checkout A self)) !! B = sessions self !! B.
Proof.
  rewrite process_checkout_eq. destruct (cart (session_of A self)); other_user.
Qed.

Lemma handle_button_press_frame button_data :
  sessions (snd (handle_button_press A button_data self)) !! B = sessions self !! B.
Proof.
  rewrite handle_button_press_eq.
  destruct (startswith "btn_add_" button_data).
  - destruct (last (split "_" button_data)) as [token|]; [|other_user].
    destruct (int_of_str token); [apply add_product_to_cart_frame|other_user].
  - destruct (String.eqb button_data "btn_view_cart");
      [apply send_cart_confirmation_buttons_frame|].
    destruct (String.eqb button_data "btn_browse"); [other_user|].
    destruct (String.eqb button_data "btn_clear_cart"); [apply clear_cart_frame|].
    destruct (String.eqb button_data "btn_checkout"); [apply process_checkout_frame|].
    other_user.
Qed.

Lemma handle_message_frame message :
  sessions (snd (handle_message A message self)) !! B = sessions self !! B.
Proof.
  rewrite handle_message_eq.
  destruct (startswith "btn_" message); [apply handle_button_press_frame|].
  destruct (route (normalize message)); simpl.
  - apply add_product_to_cart_frame.
  - apply handle_product_selection_frame.
  - apply send_cart_confirmation_buttons_frame.
  - other_user.
Qed.

End Frame.

Section Buttons.
Context `{PyBuiltins}.

(** C8. Session isolation: no operation invoked for user [A] changes the
    session of another user [B], be it absent or present, in cart, last
    product or state. *)
Theorem session_isolation (A B : string) (self : ChatBot) :
  A <> B ->
  (forall message,
     sessions (snd (handle_message A message self)) !! B = sessions self !! B) /\
  (forall product_id,
     sessions (snd (add_product_to_cart A product_id self)) !! B = sessions self !! B) /\
  sessions (snd (clear_cart A self)) !! B = sessions self !! B /\
  sessions (snd (process_checkout A self)) !! B = sessions self !! B /\
  sessions (snd (send_cart_confirmation_buttons A self)) !! B = sessions self !! B /\
  (forall query,
     sessions (snd (handle_product_selection A query self)) !! B = sessions self !! B) /\
  sessions (snd (show_products A self)) !! B = sessions self !! B /\
  sessions (snd (find_last_selected_product A self)) !! B = sessions self !! B.
Proof.
  intros HAB.
  split; [intros message; now apply handle_message_frame|].
  split; [intros product_id; now apply add_product_to_cart_frame|].
  split; [now apply clear_cart_frame|].
  split; [now apply process_checkout_frame|].
  split; [now apply send_cart_confirmation_buttons_frame|].
  split; [intros query; now apply handle_product_selection_frame|].
  split; [reflexivity|].
  rewrite find_last_selected_product_eq. other_user.
Qed.

(** C7. Malformed and unknown buttons: an add button whose last token is
    not an integer is answered by the button error, any other button that
    is not one of the four known callbacks by "button not recognized";
    both are ordinary return values, and the bot only gains the sender's
    session if it was missing: cart and last product of the sender, and
    every other session, are as before. *)
Theorem malformed_buttons (u message : string) (self : ChatBot) :
  (startswith "btn_add_" message = true ->
   (forall token, last (split "_" message) = Some token -> int_of_str token = None) ->
   handle_message u message self
   = (mkResponse "❌ Error en el botón. Intenta de nuevo." None, ensure u self)) /\
  (startswith "btn_" message = true ->
   startswith "btn_add_" message = false ->
   message ∉ ["btn_view_cart"; "btn_browse"; "btn_clear_cart"; "btn_checkout"] ->
   handle_message u message self
   = (mkResponse "❌ Botón no reconocido" None, ensure u self)) /\
  cart (session_of u (ensure u self)) = cart (session_of u self) /\
  last_product (session_of u (ensure u self)) = last_product (session_of u self) /\
  (forall s, sessions self !! u = Some s -> ensure u self = self) /\
  (forall v, v <> u -> sessions (ensure u self) !! v = sessions self !! v).
Proof.
  split; [|split].
  - intros Hadd Hbad.
    rewrite handle_message_eq, (add_prefix_is_button _ Hadd).
    rewrite handle_button_press_eq, Hadd.
    destruct (last (split "_" message)) as [token|] eqn:Htok; [|reflexivity].
    now rewrite (Hbad token eq_refl).
  - intros Hbtn Hadd Hnot.
    rewrite handle_message_eq, Hbtn, handle_button_press_eq, Hadd.
    assert (Hne : forall known,
              known ∈ ["btn_view_cart"; "btn_browse"; "btn_clear_cart"; "btn_checkout"] ->
              String.eqb message known = false).
    { intros known Hk. apply String.eqb_neq. intros ->. now apply Hnot. }
    rewrite !Hne by (apply list_elem_of_In; simpl; auto 10).
    reflexivity.
  - rewrite session_of_ensure. repeat split.
    + intros s Hs. now apply ensure_present with s.
    + intros v Hv. now apply lookup_ensure_ne.
Qed.

(** C10. Clearing the cart keeps the last selected product, so an
    add-to-cart text sent right after it succeeds: the response is the
    confirmation for that product, not "no product selected", and the cart
    holds exactly one entry, a copy of that product. *)
Theorem add_after_clear (u message : string) (p : ProductRef) (self : ChatBot) :
  last_product (session_of u self) = Some p ->
  add_text message ->
  let cleared := snd (clear_cart u self) in
  let result := handle_message u message cleared in
  cart (session_of u cleared) = [] /\
  last_product (session_of u cleared) = Some p /\
  fst result = product_added p /\
  fst result <> no_product_selected /\
  cart (session_of u (snd result)) = [mkRef (next_addr self) (obj p)] /\
  length (cart (session_of u (snd result))) = 1%nat /\
  last_product (session_of u (snd result)) = Some p.
Proof.
  intros Hlast Htext. cbv zeta.
  rewrite clear_cart_eq. simpl.
  assert (Hlast' : last_product
            (session_of u
               (mkChatBot
                  (<[u := mkSession [] (last_product (session_of u self))
                            (state (session_of u self))]> (sessions self))
                  (next_addr self))) = Some p)
    by now rewrite session_of_written.
  destruct (handle_add_text u message p _ Htext Hlast') as [_ Hres].
  rewrite Hres. simpl. rewrite !session_of_written. simpl.
  split; [reflexivity|]. split; [exact Hlast|]. split; [reflexivity|].
  split; [|now repeat split].
  intros Heq. apply (f_equal buttons) in Heq. simpl in Heq. discriminate Heq.
Qed.

End Buttons.

(** ** What a call does to the bot *)

Lemma step_post_ensure u self : step_post u self (ensure u self).
Proof.
  split; [now rewrite next_addr_ensure|]. rewrite session_of_ensure.
  split; [apply sessions_ensure|]. auto.
Qed.

Lemma step_post_written u self s n :
  (next_addr self <= n)%nat ->
  (forall p, last_product s = Some p ->
             p ∈ AVAILABLE_PRODUCTS \/ last_product (session_of u self) = Some p) ->
  (forall item, item ∈ cart s ->
                item ∈ cart (session_of u self) \/
                addr item = next_addr self /\ (next_addr self < n)%nat /\
                exists p, last_product s = Some p /\ obj item = obj p) ->
  step_post u self (mkChatBot (<[u := s]> (sessions self)) n).
Proof.
  intros Hn Hs Hc. split; [exact Hn|]. rewrite session_of_written.
  split; [reflexivity|]. split; [exact Hs|exact Hc].
Qed.

Section Conversations.
Context `{PyBuiltins}.

Lemma find_by_name_in_catalog query p :
  _find_product_by_name query = Some p -> p ∈ AVAILABLE_PRODUCTS.
Proof.
  unfold _find_product_by_name. intros Hf.
  apply find_some in Hf as [Hin _]. now apply list_elem_of_In.
Qed.

Lemma add_product_to_cart_post u product_id self :
  step_post u self (snd (add_product_to_cart u product_id self)).
Proof.
  rewrite add_product_to_cart_eq. cbv zeta.
  match goal with |- step_post _ _ (snd (match ?product with _ => _ end)) =>
    destruct product as [chosen|] eqn:Hchosen end;
    simpl; [|apply step_post_ensure].
  apply step_post_written; [lia| |]; simpl.
  - intros p [= <-].
    destruct product_id as [n|]; [destruct (n =? 0)|]; auto.
    left. now apply find_by_id_in_catalog with n.
  - intros item Hitem. apply elem_of_app in Hitem as [Hold|Hnew]; [now left|].
    apply list_elem_of_singleton in Hnew as ->. right. simpl.
    split; [reflexivity|]. split; [lia|]. now exists chosen.
Qed.

Lemma send_cart_confirmation_buttons_post u self :
  step_post u self (snd (send_cart_confirmation_buttons u self)).
Proof. rewrite send_cart_confirmation_buttons_eq. apply step_post_ensure. Qed.

Lemma handle_product_selection_post u query self :
  step_post u self (snd (handle_product_selection u query self)).
Proof.
  rewrite handle_product_selection_eq.
  destruct (_find_product_by_name query) as [found|] eqn:Hfound;
    simpl; [|apply step_post_ensure].
  apply step_post_written; [lia| |]; simpl; [|auto].
  intros p [= <-]. left. now apply find_by_name_in_catalog with query.
Qed.

Lemma clear_cart_post u self : step_post u self (snd (clear_cart u self)).
Proof.
  rewrite clear_cart_eq. simpl. apply step_post_written; [lia| |]; simpl; [auto|].
  intros item Hitem. now apply elem_of_nil in Hitem.
Qed.

Lemma process_checkout_post u self : step_post u self (snd (process_checkout u self)).
Proof.
  rewrite process_checkout_eq.
  destruct (cart (session_of u self)); simpl; [apply step_post_ensure|].
  apply step_post_written; [lia| |]; simpl; [discriminate|].
  intros item Hitem. now apply elem_of_nil in Hitem.
Qed.

Lemma handle_button_press_post u button_data self :
  step_post u self (snd (handle_button_press u button_data self)).
Proof.
  rewrite handle_button_press_eq.
  destruct (startswith "btn_add_" button_data).
  - destruct (last (split "_" button_data)) as [token|]; [|apply step_post_ensure].
    destruct (int_of_str token); [apply add_product_to_cart_post|apply step_post_ensure].
  - destruct (String.eqb button_data "btn_view_cart");
      [apply send_cart_confirmation_buttons_post|].
    destruct (String.eqb button_data "btn_browse"); [apply step_post_ensure|].
    destruct (String.eqb button_data "btn_clear_cart"); [apply clear_cart_post|].
    destruct (String.eqb button_data "btn_checkout"); [apply process_checkout_post|].
    apply step_post_ensure.
Qed.

Lemma handle_message_post u message self :
  step_post u self (snd (handle_message u message self)).
Proof.
  rewrite handle_message_eq.
  destruct (startswith "btn_" message); [apply handle_button_press_post|].
  destruct (route (normalize message)); simpl.
  - apply add_product_to_cart_post.
  - apply handle_product_selection_post.
  - apply send_cart_confirmation_buttons_post.
  - apply step_post_ensure.
Qed.

(** Properties of all conversations, by induction on the messages. *)
Lemma run_invariant (P : ChatBot -> Prop) :
  (forall u message self, P self -> P (snd (handle_message u message self))) ->
  forall messages self, P self -> P (run messages self).
Proof.
  intros Hstep messages. induction messages as [|[u message] rest IH]; intros self HP.
  - exact HP.
  - simpl. apply IH, Hstep, HP.
Qed.

Lemma reachable_invariant (P : ChatBot -> Prop) :
  P new_ChatBot ->
  (forall u message self, P self -> P (snd (handle_message u message self))) ->
  forall self, reachable self -> P self.
Proof. intros Hinit Hstep self [messages ->]. now apply run_invariant. Qed.

Lemma selection_in_catalog_step u message self :
  selection_in_catalog self -> selection_in_catalog (snd (handle_message u message self)).
Proof.
  intros Hinv v session p Hv Hp.
  destruct (handle_message_post u message self) as (_ & Hsessions & Hlast & _).
  rewrite Hsessions in Hv.
  destruct (decide (u = v)) as [<-|Huv].
  - rewrite lookup_insert_eq in Hv. injection Hv as <-.
    destruct (Hlast p Hp) as [Hin|Hold]; [exact Hin|].
    unfold session_of, _get_or_create_session in Hold.
    destruct (sessions self !! u) as [old|] eqn:Hu; [|discriminate Hold].
    now apply (Hinv u old p).
  - rewrite lookup_insert_ne in Hv by exact Huv. now apply (Hinv v session p).
Qed.

Lemma reachable_selection_in_catalog self :
  reachable self -> selection_in_catalog self.
Proof.
  revert self. apply (reachable_invariant selection_in_catalog).
  - intros v session p Hv. simpl in Hv. now rewrite lookup_empty in Hv.
  - apply selection_in_catalog_step.
Qed.

Lemma reachable_next_addr self :
  reachable self -> (length AVAILABLE_PRODUCTS <= next_addr self)%nat.
Proof.
  revert self.
  apply (reachable_invariant
           (fun bot => (length AVAILABLE_PRODUCTS <= next_addr bot)%nat)); [reflexivity|].
  intros u message bot Hbot.
  destruct (handle_message_post u message bot) as (Hn & _). lia.
Qed.

Lemma session_of_cases u self :
  sessions self !! u = Some (session_of u self) \/ session_of u self = new_session.
Proof.
  unfold session_of, _get_or_create_session.
  destruct (sessions self !! u); simpl; auto.
Qed.

Lemma carts_allocated_step u message self :
  carts_allocated self -> carts_allocated (snd (handle_message u message self)).
Proof.
  intros [Hheap Hinv].
  destruct (handle_message_post u message self) as (Hn & Hsessions & _ & Hcart).
  split; [lia|]. intros v session item Hv Hitem.
  rewrite Hsessions in Hv.
  destruct (decide (u = v)) as [<-|Huv].
  - rewrite lookup_insert_eq in Hv. injection Hv as <-.
    destruct (Hcart item Hitem) as [Hold|(Hnew & Hlt & _)]; [|lia].
    destruct (session_of_cases u self) as [Hu|Hu].
    + specialize (Hinv u _ item Hu Hold). lia.
    + rewrite Hu in Hold. now apply elem_of_nil in Hold.
  - rewrite lookup_insert_ne in Hv by exact Huv.
    specialize (Hinv v session item Hv Hitem). lia.
Qed.

Lemma reachable_carts_allocated self : reachable self -> carts_allocated self.
Proof.
  revert self. apply (reachable_invariant carts_allocated).
  - split; [reflexivity|]. intros v session item Hv. simpl in Hv.
    now rewrite lookup_empty in Hv.
  - apply carts_allocated_step.
Qed.



Lemma session_of_ext u self self' :
  sessions self' !! u = sessions self !! u -> session_of u self' = session_of u self.
Proof.
  intros Heq. unfold session_of, _get_or_create_session. rewrite Heq.
  now destruct (sessions self !! u).
Qed.

(** A message that selects nothing leaves "no product selected" as it is,
    and so does any message of another user. *)
Lemma no_selection_step u v message self :
  last_product (session_of u self) = None ->
  (v = u -> selects_product message = false) ->
  last_product (session_of u (snd (handle_message v message self))) = None.
Proof.
  intros Hnone Hsel.
  destruct (decide (v = u)) as [->|Hvu].
  2: { now rewrite (session_of_ext u self _ (handle_message_frame v u self Hvu message)). }
  specialize (Hsel eq_refl). unfold selects_product in Hsel.
  rewrite handle_message_eq.
  destruct (startswith "btn_" message).
  - rewrite handle_button_press_eq, Hsel.
    destruct (String.eqb message "btn_view_cart").
    { now rewrite send_cart_confirmation_buttons_eq; simpl; rewrite session_of_ensure. }
    destruct (String.eqb message "btn_browse").
    { simpl. now rewrite session_of_ensure. }
    destruct (String.eqb message "btn_clear_cart").
    { rewrite clear_cart_eq. simpl. now rewrite session_of_written. }
    destruct (String.eqb message "btn_checkout").
    { rewrite process_checkout_eq. destruct (cart (session_of u self)); simpl.
      - now rewrite session_of_ensure.
      - now rewrite session_of_written. }
    simpl. now rewrite session_of_ensure.
  - destruct (route (normalize message)); try discriminate Hsel; simpl.
    + rewrite add_product_to_cart_eq. cbv zeta. rewrite Hnone. simpl.
      now rewrite session_of_ensure.
    + rewrite send_cart_confirmation_buttons_eq. simpl. now rewrite session_of_ensure.
    + now rewrite session_of_ensure.
Qed.

Lemma no_selection_run u messages self :
  last_product (session_of u self) = None ->
  (forall message, (u, message) ∈ messages -> selects_product message = false) ->
  last_product (session_of u (run messages self)) = None.
Proof.
  revert self. induction messages as [|[v message] rest IH]; intros self Hnone Hsel.
  - exact Hnone.
  - simpl. apply IH.
    + apply no_selection_step; [exact Hnone|].
      intros ->. apply Hsel. left.
    + intros m Hm. apply Hsel. now right.
Qed.

(** C9. The last selected product is a catalog product: in every bot that
    a conversation leads to, a session's last product, when set, is one of
    the objects of the catalog; a new bot has none selected, and none is
    selected for a user as long as that user has sent no message that
    selects a product. *)
Theorem last_product_in_catalog (messages : list (string * string)) (u : string) :
  let self := run messages new_ChatBot in
  (forall session p,
     sessions self !! u = Some session -> last_product session = Some p ->
     p ∈ AVAILABLE_PRODUCTS) /\
  (forall p, fst (find_last_selected_product u self) = Some p -> p ∈ AVAILABLE_PRODUCTS) /\
  fst (find_last_selected_product u new_ChatBot) = None /\
  ((forall message, (u, message) ∈ messages -> selects_product message = false) ->
   fst (find_last_selected_product u self) = None).
Proof.
  cbv zeta.
  assert (Hinv : selection_in_catalog (run messages new_ChatBot))
    by (apply reachable_selection_in_catalog; now exists messages).
  split; [intros session p; apply Hinv|].
  rewrite !find_last_selected_product_eq. simpl.
  split; [|split; [reflexivity|]].
  - intros p Hp.
    destruct (session_of_cases u (run messages new_ChatBot)) as [Hu|Hu].
    + now apply (Hinv u _ p Hu).
    + rewrite Hu in Hp. discriminate Hp.
  - intros Hsel. now apply no_selection_run.
Qed.

(** C5. Routing precedence: a message that is not a button is normalized
    and handled by the first intent that matches, in the order add-to-cart,
    product search, view cart; so a message with an add trigger is an
    add-to-cart request even when it also names a catalog product. *)
Theorem routing_precedence (u message : string) (self : ChatBot) :
  startswith "btn_" message = false ->
  let normalized := str_strip (str_lower message) in
  let add := _is_add_to_cart_intent normalized in
  let search := _is_product_search normalized in
  let view := _is_view_cart_intent normalized in
  handle_message u message self = dispatch (route normalized) u normalized self /\
  (route normalized = RouteAdd <-> add = true) /\
  (route normalized = RouteSearch <-> add = false /\ search = true) /\
  (route normalized = RouteViewCart <-> add = false /\ search = false /\ view = true) /\
  (route normalized = RouteUnknown <-> add = false /\ search = false /\ view = false) /\
  (forall trigger,
     trigger ∈ add_patterns -> contains trigger normalized = true ->
     handle_message u message self = add_product_to_cart u None self).
Proof.
  intros Hbtn. cbv zeta.
  assert (Heq := handle_message_eq u message self).
  rewrite Hbtn in Heq. unfold normalize in Heq.
  set (normalized := str_strip (str_lower message)) in *.
  split; [exact Heq|].
  split; [|split; [|split; [|split]]].
  5: { intros trigger Hin Hc. rewrite Heq. unfold route.
       replace (_is_add_to_cart_intent normalized) with true; [reflexivity|].
       symmetry. apply existsb_exists. exists trigger.
       split; [now apply list_elem_of_In|exact Hc]. }
  all: clear Heq; unfold route;
    destruct (_is_add_to_cart_intent normalized), (_is_product_search normalized),
      (_is_view_cart_intent normalized);
    intuition congruence.
Qed.

(** C6. Cart accumulation: from an empty cart, adding the catalog product
    [p] twice, each time by its add button or by an add-to-cart text while
    [p] is the last selected product, leaves a cart of exactly two
    entries.  Each entry is a new object carrying the id, name and price of
    [p]: the two differ from each other, from every object of the catalog
    and from every entry of every cart that existed before. *)
Theorem cart_accumulates (u m1 m2 : string) (p : ProductRef) (self : ChatBot) :
  reachable self ->
  p ∈ AVAILABLE_PRODUCTS ->
  cart (session_of u self) = [] ->
  (m1 = add_button p \/ add_text m1 /\ last_product (session_of u self) = Some p) ->
  (m2 = add_button p \/ add_text m2) ->
  let final := session_of u (run [(u, m1); (u, m2)] self) in
  let first := mkRef (next_addr self) (obj p) in
  let second := mkRef (S (next_addr self)) (obj p) in
  cart final = [first; second] /\
  length (cart final) = 2%nat /\
  (id (obj first) = id (obj p) /\ name (obj first) = name (obj p)
   /\ price (obj first) = price (obj p)) /\
  (id (obj second) = id (obj p) /\ name (obj second) = name (obj p)
   /\ price (obj second) = price (obj p)) /\
  addr first <> addr second /\
  (forall q, q ∈ AVAILABLE_PRODUCTS -> addr q <> addr first /\ addr q <> addr second) /\
  (forall v session item,
     sessions self !! v = Some session -> item ∈ cart session ->
     addr item <> addr first /\ addr item <> addr second).
Proof.
  intros Hreach Hp Hempty H1 H2. cbv zeta.
  destruct (reachable_carts_allocated self Hreach) as [Hheap Hcarts].
  assert (Hstep1 : snd (handle_message u m1 self)
            = mkChatBot
                (<[u := mkSession [mkRef (next_addr self) (obj p)] (Some p)
                          (state (session_of u self))]> (sessions self))
                (S (next_addr self))).
  { destruct H1 as [->|[Htext Hlast]].
    - destruct (handle_add_button u p self Hp) as [_ ->]. simpl. now rewrite Hempty.
    - destruct (handle_add_text u m1 p self Htext Hlast) as [_ ->]. simpl.
      now rewrite Hempty. }
  simpl run. rewrite Hstep1.
  set (self1 := mkChatBot _ (S (next_addr self))).
  assert (Hlast1 : last_product (session_of u self1) = Some p)
    by (unfold self1; now rewrite session_of_written).
  assert (Hstep2 : snd (handle_message u m2 self1)
            = mkChatBot
                (<[u := mkSession
                          (cart (session_of u self1) ++ [mkRef (next_addr self1) (obj p)])
                          (Some p) (state (session_of u self1))]> (sessions self1))
                (S (next_addr self1))).
  { destruct H2 as [->|Htext].
    - now destruct (handle_add_button u p self1 Hp) as [_ ->].
    - now destruct (handle_add_text u m2 p self1 Htext Hlast1) as [_ ->]. }
  rewrite Hstep2, session_of_written. unfold self1. rewrite session_of_written. simpl.
  split; [reflexivity|]. split; [reflexivity|].
  split; [now repeat split|]. split; [now repeat split|].
  split; [lia|]. split.
  - intros q Hq.
    assert (Hlt : (addr q < length AVAILABLE_PRODUCTS)%nat).
    { revert q Hq. apply catalog_cases. repeat constructor; simpl; lia. }
    lia.
  - intros v session item Hv Hitem. specialize (Hcarts v session item Hv Hitem). lia.
Qed.

End Conversations.

(** ** The [.2f] format *)








(** ** Grouping the cart *)
















Section Summary.
Context `{PyBuiltins}.


End Summary.

(** ** Worked conversations

    The theorems above, applied to conversations of the test suite with the
    ASCII built-ins. *)

Lemma add_paths_agree_witness :
  let self := run [("ana", "laptop")] new_ChatBot in
  let by_text := fst (handle_message "ana" "agregar al carrito" self) in
  let by_button := fst (handle_message "ana" "btn_add_1" self) in
  last_product (session_of "ana" self) = Some laptop /\
  response by_text = response by_button /\ buttons by_text = buttons by_button.
Proof.
  cbv zeta.
  assert (Hp : laptop ∈ AVAILABLE_PRODUCTS) by (apply list_elem_of_In; simpl; auto).
  assert (Hlast : last_product (session_of "ana" (run [("ana", "laptop")] new_ChatBot))
                  = Some laptop) by (vm_compute; reflexivity).
  assert (Htext : add_text "agregar al carrito") by (split; vm_compute; reflexivity).
  split; [exact Hlast|].
  destruct (add_paths_agree "ana" "agregar al carrito" laptop _
              (run [("ana", "laptop")] new_ChatBot) Hp Hlast Htext)
    as (_ & _ & Hr & Hb & _).
  split; [exact Hr|exact Hb].
Defined.

(** C2. The id [0] is not resolved by catalog lookup: no catalog product
    has id [0], yet after "laptop" was selected the callback [btn_add_0]
    (and a direct call with id [0]) adds the laptop instead of answering
    that no product is selected. *)
Theorem add_by_id_zero_adds_last_product :
  let self := run [("ana", "laptop")] new_ChatBot in
  let by_button := handle_message "ana" "btn_add_0" self in
  _find_product_by_id 0 = None /\
  last_product (session_of "ana" self) = Some laptop /\
  fst (add_product_to_cart "ana" (Some 0) self) = product_added laptop /\
  fst by_button = product_added laptop /\
  fst by_button <> no_product_selected /\
  cart (session_of "ana" (snd by_button)) = [mkRef 4 (obj laptop)].
Proof.
  cbv zeta. repeat split; try (vm_compute; reflexivity).
  vm_compute. discriminate.
Qed.


Lemma routing_precedence_witness :
  let self := run [("ana", "mouse")] new_ChatBot in
  startswith "btn_" "agregar laptop" = false /\
  _is_product_search (normalize "agregar laptop") = true /\
  handle_message "ana" "agregar laptop" self = add_product_to_cart "ana" None self /\
  fst (handle_message "ana" "agregar laptop" self) = product_added mouse.
Proof.
  cbv zeta.
  assert (Hbtn : startswith "btn_" "agregar laptop" = false) by reflexivity.
  split; [exact Hbtn|]. split; [vm_compute; reflexivity|].
  destruct (routing_precedence "ana" "agregar laptop"
              (run [("ana", "mouse")] new_ChatBot) Hbtn) as (_ & _ & _ & _ & _ & Hadd).
  assert (Hcall := Hadd "agregar").
  split.
  - apply Hcall; [apply list_elem_of_In; simpl; auto 10|vm_compute; reflexivity].
  - vm_compute. reflexivity.
Defined.

Lemma cart_accumulates_witness :
  let self := run [("ana", "laptop")] new_ChatBot in
  let final := session_of "ana" (run [("ana", "agregar al carrito"); ("ana", "btn_add_1")] self) in
  cart (session_of "ana" self) = [] /\
  cart final = [mkRef 4 (obj laptop); mkRef 5 (obj laptop)] /\
  length (cart final) = 2%nat.
Proof.
  cbv zeta.
  assert (Hreach : reachable (run [("ana", "laptop")] new_ChatBot))
    by (exists [("ana", "laptop")]; reflexivity).
  assert (Hp : laptop ∈ AVAILABLE_PRODUCTS) by (apply list_elem_of_In; simpl; auto).
  assert (Hempty : cart (session_of "ana" (run [("ana", "laptop")] new_ChatBot)) = [])
    by (vm_compute; reflexivity).
  assert (H1 : "agregar al carrito" = add_button laptop \/
               add_text "agregar al carrito" /\
               last_product (session_of "ana" (run [("ana", "laptop")] new_ChatBot))
               = Some laptop)
    by (right; repeat split; vm_compute; reflexivity).
  assert (H2 : "btn_add_1" = add_button laptop \/ add_text "btn_add_1")
    by (left; reflexivity).
  split; [exact Hempty|].
  destruct (cart_accumulates "ana" "agregar al carrito" "btn_add_1" laptop _
              Hreach Hp Hempty H1 H2) as (Hcart & Hlen & _).
  split; [exact Hcart|exact Hlen].
Defined.

Lemma malformed_buttons_witness :
  fst (handle_message "ana" "btn_add_invalid" new_ChatBot) = button_error /\
  fst (handle_message "ana" "btn_invalid" new_ChatBot) = button_not_recognized.
Proof.
  split.
  - destruct (malformed_buttons "ana" "btn_add_invalid" new_ChatBot) as (Hbad & _).
    rewrite Hbad; [reflexivity|reflexivity|].
    intros token Htoken. vm_compute in Htoken. injection Htoken as <-.
    vm_compute. reflexivity.
  - destruct (malformed_buttons "ana" "btn_invalid" new_ChatBot) as (_ & Hunknown & _).
    rewrite Hunknown; [reflexivity|reflexivity|reflexivity|].
    intros Hin. apply list_elem_of_In in Hin. simpl in Hin.
    intuition discriminate.
Defined.

Lemma session_isolation_witness :
  let self := run [("bob", "btn_add_2")] new_ChatBot in
  "ana" <> "bob" /\
  sessions (snd (handle_message "ana" "btn_add_1" self)) !! "bob" = sessions self !! "bob" /\
  sessions (snd (process_checkout "ana" self)) !! "bob" = sessions self !! "bob".
Proof.
  cbv zeta.
  assert (Hne : "ana" <> "bob") by discriminate.
  split; [exact Hne|].
  destruct (session_isolation "ana" "bob" (run [("bob", "btn_add_2")] new_ChatBot) Hne)
    as (Hmessage & _ & _ & Hcheckout & _).
  split; [apply Hmessage|exact Hcheckout].
Defined.

Lemma add_after_clear_witness :
  let self := run [("ana", "laptop"); ("ana", "agregar")] new_ChatBot in
  let cleared := snd (clear_cart "ana" self) in
  let result := handle_message "ana" "agregar al carrito" cleared in
  last_product (session_of "ana" self) = Some laptop /\
  fst result = product_added laptop /\
  length (cart (session_of "ana" (snd result))) = 1%nat.
Proof.
  cbv zeta.
  assert (Hlast : last_product (session_of "ana"
                    (run [("ana", "laptop"); ("ana", "agregar")] new_ChatBot))
                  = Some laptop) by (vm_compute; reflexivity).
  assert (Htext : add_text "agregar al carrito") by (split; vm_compute; reflexivity).
  split; [exact Hlast|].
  destruct (add_after_clear "ana" "agregar al carrito" laptop _ Hlast Htext)
    as (_ & _ & Hresponse & _ & _ & Hlen & _).
  split; [exact Hresponse|exact Hlen].
Defined.

(** * Further properties of the program *)

(** ** Substrings *)

Lemma append_cons c (s t : string) : String c s ++ t = String c (s ++ t).
Proof. reflexivity. Qed.

Lemma append_nil_r (s : string) : s ++ "" = s.
Proof.
  induction s as [|c s IH]; [reflexivity|]. rewrite append_cons. now f_equal.
Qed.

Lemma append_assoc (a b c : string) : (a ++ b) ++ c = a ++ b ++ c.
Proof.
  induction a as [|x a IH]; [reflexivity|]. rewrite !append_cons. now f_equal.
Qed.

Lemma startswith_spec p s : startswith p s = true <-> exists t, s = p ++ t.
Proof.
  revert s. induction p as [|a p IH]; intros s.
  - split; [intros _; now exists s|reflexivity].
  - destruct s as [|b s].
    + split; [discriminate|intros [t Ht]; rewrite append_cons in Ht; discriminate Ht].
    + cbn [startswith]. rewrite andb_true_iff, IH. split.
      * intros [Hab [t ->]]. apply Ascii.eqb_eq in Hab as ->. now exists t.
      * intros [t Ht]. rewrite append_cons in Ht. injection Ht as -> ->.
        split; [apply Ascii.eqb_refl|now exists t].
Qed.

Lemma contains_spec p s : contains p s = true <-> exists a b, s = a ++ p ++ b.
Proof.
  induction s as [|c s IH].
  - cbn [contains]. rewrite orb_false_r, startswith_spec. split.
    + intros [t Ht]. now exists "", t.
    + intros (a & b & Hab). destruct a; [now exists b|].
      rewrite append_cons in Hab. discriminate Hab.
  - cbn [contains]. rewrite orb_true_iff, startswith_spec, IH. split.
    + intros [[t Ht]|(a & b & ->)]; [now exists "", t|now exists (String c a), b].
    + intros (a & b & Hab). destruct a as [|x a]; [left; now exists b|].
      right. rewrite append_cons in Hab. injection Hab as _ ->. now exists a, b.
Qed.

Lemma contains_trans q p s :
  contains q p = true -> contains p s = true -> contains q s = true.
Proof.
  rewrite !contains_spec. intros (a & b & ->) (c & d & ->).
  exists (c ++ a), (b ++ d). now rewrite !append_assoc.
Qed.

(** ** The intent predicates *)

Lemma any_in_spec patterns message :
  any_in patterns message = true
  <-> exists pattern, pattern ∈ patterns /\ contains pattern message = true.
Proof.
  unfold any_in. rewrite existsb_exists.
  split; intros (pattern & Hin & Hc); exists pattern; (split; [|exact Hc]);
    now apply list_elem_of_In.
Qed.

Section Intents.
Context `{PyBuiltins}.

(** X1. The long phrases of the two trigger lists are redundant: a message
    has the add-to-cart intent exactly when it contains "agregar",
    "añadir" or "add to cart", and the view-cart intent exactly when it
    contains "carrito" or "cart".  The three long add phrases all contain
    a view-cart trigger as well. *)
Theorem intent_triggers (message : string) :
  _is_add_to_cart_intent message
  = contains "agregar" message || contains "añadir" message
    || contains "add to cart" message /\
  _is_view_cart_intent message
  = contains "carrito" message || contains "cart" message /\
  (forall phrase,
     phrase ∈ ["agregar al carrito"; "add to cart"; "añadir al carrito"] ->
     contains phrase message = true ->
     _is_add_to_cart_intent message = true /\ _is_view_cart_intent message = true).
Proof.
  assert (Hsub : forall q p, contains q p = true ->
                             contains p message = true -> contains q message = true)
    by (intros q p; apply contains_trans).
  assert (H1 := Hsub "agregar" "agregar al carrito" eq_refl).
  assert (H2 := Hsub "añadir" "añadir al carrito" eq_refl).
  assert (H3 := Hsub "carrito" "ver carrito" eq_refl).
  assert (H4 := Hsub "cart" "view cart" eq_refl).
  assert (H5 := Hsub "carrito" "agregar al carrito" eq_refl).
  assert (H6 := Hsub "carrito" "añadir al carrito" eq_refl).
  assert (H7 := Hsub "cart" "add to cart" eq_refl).
  unfold _is_add_to_cart_intent, _is_view_cart_intent, any_in. simpl.
  rewrite !orb_false_r.
  split; [|split].
  - destruct (contains "agregar al carrito" message), (contains "add to cart" message),
      (contains "añadir al carrito" message), (contains "agregar" message),
      (contains "añadir" message); try reflexivity;
      try (now specialize (H1 eq_refl)); now specialize (H2 eq_refl).
  - destruct (contains "carrito" message), (contains "cart" message),
      (contains "ver carrito" message), (contains "view cart" message);
      try reflexivity; try (now specialize (H3 eq_refl)); now specialize (H4 eq_refl).
  - intros phrase Hin Hc.
    apply list_elem_of_In in Hin. simpl in Hin.
    destruct Hin as [<-|[<-|[<-|[]]]]; rewrite Hc; simpl.
    + rewrite (H5 Hc). now rewrite ?orb_true_r.
    + rewrite (H7 Hc). now rewrite ?orb_true_r.
    + rewrite (H6 Hc). now rewrite ?orb_true_r.
Qed.

End Intents.

(** ** Looking products up *)

Lemma find_first {A} (f : A -> bool) (l : list A) (x : A) :
  List.find f l = Some x
  <-> exists i, l !! i = Some x /\ f x = true /\
                forall j y, (j < i)%nat -> l !! j = Some y -> f y = false.
Proof.
  induction l as [|a l IH]; simpl.
  - split; [discriminate|]. intros (i & Hi & _). now rewrite lookup_nil in Hi.
  - destruct (f a) eqn:Hfa.
    + split.
      * intros [= <-]. exists 0%nat. repeat split; [exact Hfa|]. intros j y Hj. lia.
      * intros (i & Hi & Hfx & Hbefore). destruct i as [|i]; [exact Hi|].
        specialize (Hbefore 0%nat a (Nat.lt_0_succ i) eq_refl). congruence.
    + rewrite IH. split.
      * intros (i & Hi & Hfx & Hbefore). exists (S i). repeat split; [exact Hi|exact Hfx|].
        intros [|j] y Hj Hy; [injection Hy as <-; exact Hfa|].
        apply (Hbefore j y); [lia|exact Hy].
      * intros (i & Hi & Hfx & Hbefore). destruct i as [|i].
        { injection Hi as <-. congruence. }
        exists i. repeat split; [exact Hi|exact Hfx|].
        intros j y Hj Hy. apply (Hbefore (S j) y); [lia|exact Hy].
Qed.

Lemma find_none {A} (f : A -> bool) (l : list A) :
  List.find f l = None <-> forall y, y ∈ l -> f y = false.
Proof.
  induction l as [|a l IH]; simpl.
  - split; [intros _ y Hy; now apply elem_of_nil in Hy|reflexivity].
  - destruct (f a) eqn:Hfa.
    + split; [discriminate|]. intros Hall. specialize (Hall a). rewrite Hfa in Hall.
      discriminate Hall. left.
    + rewrite IH. split.
      * intros Hall y Hy. apply elem_of_cons in Hy as [->|Hy]; auto.
      * intros Hall y Hy. apply Hall. now right.
Qed.

Section Lookup.
Context `{PyBuiltins}.

(** X2. Lookup by id is exact: a product is found by an id exactly when it
    is the catalog product with that id, which is unique, and nothing is
    found exactly for the ids outside 1..4. *)
Theorem find_product_by_id_exact (n : Z) :
  (forall p, _find_product_by_id n = Some p <-> p ∈ AVAILABLE_PRODUCTS /\ id (obj p) = n) /\
  (_find_product_by_id n = None <-> n < 1 \/ 4 < n) /\
  (forall p q, p ∈ AVAILABLE_PRODUCTS -> q ∈ AVAILABLE_PRODUCTS ->
               id (obj p) = id (obj q) -> p = q).
Proof.
  split; [|split].
  - intros p. split.
    + intros Hf. split; [now apply find_by_id_in_catalog with n|].
      unfold _find_product_by_id in Hf. apply find_some in Hf as [_ Heq].
      now apply Z.eqb_eq in Heq.
    + intros [Hp <-]. now apply find_by_own_id.
  - unfold _find_product_by_id. cbn -[Z.eqb].
    destruct (Z.eqb_spec 1 n); [split; [discriminate|lia]|].
    destruct (Z.eqb_spec 2 n); [split; [discriminate|lia]|].
    destruct (Z.eqb_spec 3 n); [split; [discriminate|lia]|].
    destruct (Z.eqb_spec 4 n); [split; [discriminate|lia]|].
    split; [lia|reflexivity].
  - intros p q Hp Hq Hid.
    destruct (find_by_own_id p Hp) as [_ Hfp].
    destruct (find_by_own_id q Hq) as [_ Hfq].
    rewrite Hid, Hfq in Hfp. now injection Hfp.
Qed.

(** X3. Lookup by name takes the first match in catalog order: the product
    found is the first one whose lowercased name occurs in the lowercased
    query, and nothing is found only when no name occurs.  A message is a
    product search exactly when it contains some lowercased name. *)
Theorem find_product_by_name_first (query : string) :
  (forall p,
     _find_product_by_name query = Some p
     <-> exists i,
           AVAILABLE_PRODUCTS !! i = Some p /\
           contains (str_lower (name (obj p))) (str_lower query) = true /\
           forall j q, (j < i)%nat -> AVAILABLE_PRODUCTS !! j = Some q ->
                       contains (str_lower (name (obj q))) (str_lower query) = false) /\
  (_find_product_by_name query = None
   <-> forall q, q ∈ AVAILABLE_PRODUCTS ->
                 contains (str_lower (name (obj q))) (str_lower query) = false) /\
  (_is_product_search query = true
   <-> exists q, q ∈ AVAILABLE_PRODUCTS /\
                 contains (str_lower (name (obj q))) query = true).
Proof.
  split; [|split].
  - intros p. unfold _find_product_by_name.
    apply (find_first
             (fun product => contains (str_lower (name (obj product))) (str_lower query))).
  - unfold _find_product_by_name.
    apply (find_none
             (fun product => contains (str_lower (name (obj product))) (str_lower query))).
  - unfold _is_product_search. rewrite any_in_spec. unfold product_names. split.
    + intros (pattern & Hin & Hc).
      apply list_elem_of_fmap in Hin as (q & -> & Hq). now exists q.
    + intros (q & Hq & Hc). exists (str_lower (name (obj q))). split; [|exact Hc].
      apply list_elem_of_fmap. now exists q.
Qed.

End Lookup.

(** ** The last token of a callback *)






(** ** Replies and carts, call by call *)

Lemma step_cart_ensure u self : step_cart u self (ensure u self).
Proof.
  unfold step_cart. rewrite session_of_ensure, next_addr_ensure. auto.
Qed.

Lemma step_cart_written u self s n :
  state s = state (session_of u self) ->
  (cart s = cart (session_of u self) /\ n = next_addr self \/
   cart s = [] /\ n = next_addr self \/
   exists p, (cart s = cart (session_of u self) ++ [mkRef (next_addr self) (obj p)])%list /\
             last_product s = Some p /\ n = S (next_addr self)) ->
  step_cart u self (mkChatBot (<[u := s]> (sessions self)) n).
Proof. intros Hstate Hcart. unfold step_cart. now rewrite session_of_written. Qed.

Section Replies.
Context `{PyBuiltins}.

Lemma add_product_to_cart_cart u product_id self :
  step_cart u self (snd (add_product_to_cart u product_id self)).
Proof.
  rewrite add_product_to_cart_eq. cbv zeta.
  match goal with |- step_cart _ _ (snd (match ?product with _ => _ end)) =>
    destruct product as [chosen|] end; simpl; [|apply step_cart_ensure].
  apply step_cart_written; [reflexivity|]. right. right. now exists chosen.
Qed.

Lemma handle_product_selection_cart u query self :
  step_cart u self (snd (handle_product_selection u query self)).
Proof.
  rewrite handle_product_selection_eq.
  destruct (_find_product_by_name query); simpl; [|apply step_cart_ensure].
  apply step_cart_written; simpl; auto.
Qed.

Lemma clear_cart_cart u self : step_cart u self (snd (clear_cart u self)).
Proof. rewrite clear_cart_eq. simpl. apply step_cart_written; simpl; auto. Qed.

Lemma process_checkout_cart u self : step_cart u self (snd (process_checkout u self)).
Proof.
  rewrite process_checkout_eq.
  destruct (cart (session_of u self)); simpl; [apply step_cart_ensure|].
  apply step_cart_written; simpl; auto.
Qed.

Lemma handle_button_press_cart u button_data self :
  step_cart u self (snd (handle_button_press u button_data self)).
Proof.
  rewrite handle_button_press_eq.
  destruct (startswith "btn_add_" button_data).
  - destruct (last (split "_" button_data)) as [token|]; [|apply step_cart_ensure].
    destruct (int_of_str token); [apply add_product_to_cart_cart|apply step_cart_ensure].
  - destruct (String.eqb button_data "btn_view_cart").
    { rewrite send_cart_confirmation_buttons_eq. apply step_cart_ensure. }
    destruct (String.eqb button_data "btn_browse"); [apply step_cart_ensure|].
    destruct (String.eqb button_data "btn_clear_cart"); [apply clear_cart_cart|].
    destruct (String.eqb button_data "btn_checkout"); [apply process_checkout_cart|].
    apply step_cart_ensure.
Qed.

Lemma handle_message_cart u message self :
  step_cart u self (snd (handle_message u message self)).
Proof.
  rewrite handle_message_eq.
  destruct (startswith "btn_" message); [apply handle_button_press_cart|].
  destruct (route (normalize message)); simpl.
  - apply add_product_to_cart_cart.
  - apply handle_product_selection_cart.
  - rewrite send_cart_confirmation_buttons_eq. apply step_cart_ensure.
  - apply step_cart_ensure.
Qed.

Lemma add_product_to_cart_reply message u product_id self :
  Reply message (fst (add_product_to_cart u product_id self)).
Proof.
  rewrite add_product_to_cart_eq. cbv zeta.
  match goal with |- Reply _ (fst (match ?product with _ => _ end)) =>
    destruct product end; constructor.
Qed.

Lemma send_cart_confirmation_buttons_reply message u self :
  Reply message (fst (send_cart_confirmation_buttons u self)).
Proof.
  rewrite send_cart_confirmation_buttons_eq. simpl.
  destruct (cart (session_of u self)) eqn:Hcart; [constructor|].
  now apply reply_cart_summary.
Qed.

Lemma process_checkout_reply message u self :
  Reply message (fst (process_checkout u self)).
Proof.
  rewrite process_checkout_eq. destruct (cart (session_of u self)); constructor.
Qed.

Lemma handle_button_press_reply message u self :
  Reply message (fst (handle_button_press u message self)).
Proof.
  rewrite handle_button_press_eq.
  destruct (startswith "btn_add_" message).
  - destruct (last (split "_" message)) as [token|]; [|constructor].
    destruct (int_of_str token); [apply add_product_to_cart_reply|constructor].
  - destruct (String.eqb message "btn_view_cart");
      [apply send_cart_confirmation_buttons_reply|].
    destruct (String.eqb message "btn_browse"); [apply reply_products|].
    destruct (String.eqb message "btn_clear_cart");
      [rewrite clear_cart_eq; constructor|].
    destruct (String.eqb message "btn_checkout"); [apply process_checkout_reply|].
    constructor.
Qed.

Lemma handle_message_reply u message self :
  Reply message (fst (handle_message u message self)).
Proof.
  rewrite handle_message_eq.
  destruct (startswith "btn_" message); [apply handle_button_press_reply|].
  unfold route.
  destruct (_is_add_to_cart_intent (normalize message));
    [apply add_product_to_cart_reply|].
  destruct (_is_product_search (normalize message)) eqn:Hsearch.
  - simpl. rewrite handle_product_selection_eq.
    destruct (_find_product_by_name (normalize message)) as [p|] eqn:Hfind; simpl.
    + apply reply_product_details. now apply find_by_name_in_catalog with (normalize message).
    + now apply reply_product_not_found.
  - destruct (_is_view_cart_intent (normalize message)); simpl;
      [apply send_cart_confirmation_buttons_reply|constructor].
Qed.

End Replies.

(** ** Buttons *)

Ltac differ :=
  let Heq := fresh "Heq" in
  intros Heq;
  first [ apply (f_equal buttons) in Heq; vm_compute in Heq; discriminate Heq
        | apply (f_equal response) in Heq; vm_compute in Heq; discriminate Heq ].

Lemma known_callback_cases (P : string -> Prop) :
  P "btn_view_cart" -> P "btn_browse" -> P "btn_clear_cart" -> P "btn_checkout" ->
  forall c, c ∈ known_callbacks -> P c.
Proof.
  intros H1 H2 H3 H4 c Hc. apply list_elem_of_In in Hc. simpl in Hc.
  destruct Hc as [<-|[<-|[<-|[<-|[]]]]]; assumption.
Qed.

Section Buttons2.
Context `{PyBuiltins}.

Lemma reply_buttons message r :
  Reply message r ->
  (buttons r = None /\ (r = not_understood \/ r = button_error \/ r = button_not_recognized))
  \/ (exists b bs, buttons r = Some (b :: bs)).
Proof.
  intros [ | | | |p| |cart Hcart|p Hp|Hs Hf|u self| | |total];
    try (left; split; [reflexivity|]; auto; fail);
    right; eexists; eexists; reflexivity.
Qed.

Lemma offered_products u self :
  offered (fst (show_products u self)) = map add_button AVAILABLE_PRODUCTS.
Proof. reflexivity. Qed.

Lemma reply_offered message r c :
  Reply message r -> c ∈ offered r ->
  c ∈ known_callbacks \/ exists p, p ∈ AVAILABLE_PRODUCTS /\ c = add_button p.
Proof.
  intros [ | | | |p| |cart Hcart|p Hp|Hs Hf|u self| | |total] Hc.
  10: { rewrite offered_products in Hc.
        apply list_elem_of_fmap in Hc as (p & -> & Hp). right. now exists p. }
  all: unfold offered in Hc; simpl in Hc;
    try (now apply elem_of_nil in Hc);
    try (left; apply list_elem_of_In in Hc; simpl in Hc;
         apply list_elem_of_In; unfold known_callbacks; simpl; intuition; fail).
  apply elem_of_cons in Hc as [->|Hc]; [right; now exists p|].
  left. apply list_elem_of_singleton in Hc as ->.
  apply list_elem_of_In. simpl. auto.
Qed.

Lemma known_callback_reply v c self :
  c ∈ known_callbacks -> buttons (fst (handle_message v c self)) <> None.
Proof.
  revert c. apply known_callback_cases;
    rewrite handle_message_eq, handle_button_press_eq; simpl.
  - rewrite send_cart_confirmation_buttons_eq. simpl.
    now destruct (cart (session_of v self)).
  - discriminate.
  - rewrite clear_cart_eq. discriminate.
  - rewrite process_checkout_eq. now destruct (cart (session_of v self)).
Qed.


(** X5. Every button that a reply offers is understood when it is sent
    back: its callback is one of the four fixed callbacks or the add
    button of a catalog product, and the reply to it is never the button
    error, "button not recognized" or "not understood". *)
Theorem offered_callbacks_handled (u message c : string) (self : ChatBot) :
  c ∈ offered (fst (handle_message u message self)) ->
  (c ∈ known_callbacks \/ exists p, p ∈ AVAILABLE_PRODUCTS /\ c = add_button p) /\
  forall v self',
    let r := fst (handle_message v c self') in
    r <> button_error /\ r <> button_not_recognized /\ r <> not_understood.
Proof.
  intros Hc.
  assert (Hkind := reply_offered message _ c (handle_message_reply u message self) Hc).
  split; [exact Hkind|]. intros v self'. cbv zeta.
  assert (Hbuttons : buttons (fst (handle_message v c self')) <> None).
  { destruct Hkind as [Hknown|(p & Hp & ->)].
    - now apply known_callback_reply.
    - destruct (handle_add_button v p self' Hp) as [_ ->]. discriminate. }
  repeat split; intros Heq; apply Hbuttons; now rewrite Heq.
Qed.

(** X6. A reply has no buttons exactly when it is one of the three
    dead ends (not understood, button error, button not recognized); every
    other reply offers at least one button. *)
Theorem replies_without_buttons (u message : string) (self : ChatBot) :
  let r := fst (handle_message u message self) in
  (buttons r = None
   <-> r = not_understood \/ r = button_error \/ r = button_not_recognized) /\
  buttons r <> Some [].
Proof.
  cbv zeta.
  destruct (reply_buttons message _ (handle_message_reply u message self))
    as [[Hnone Hdead]|(b & bs & Hsome)].
  - split; [tauto|]. now rewrite Hnone.
  - rewrite Hsome. split; [|discriminate].
    split; [discriminate|].
    intros [Heq|[Heq|Heq]]; rewrite Heq in Hsome; discriminate Hsome.
Qed.

(** X7. "Product not found" cannot be the reply to a message: when
    lowercasing the normalized message changes nothing, a message routed
    to the product search always finds a catalog product. *)
Theorem product_not_found_unreachable (u message : string) (self : ChatBot) :
  str_lower (normalize message) = normalize message ->
  fst (handle_message u message self) <> product_not_found /\
  (startswith "btn_" message = false -> route (normalize message) = RouteSearch ->
   exists p, p ∈ AVAILABLE_PRODUCTS /\
             fst (handle_message u message self) = product_details p /\
             last_product (session_of u (snd (handle_message u message self))) = Some p).
Proof.
  intros Hlower.
  assert (Hfound : _is_product_search (normalize message) = true ->
                   _find_product_by_name (normalize message) <> None).
  { intros Hsearch Hnone.
    unfold _is_product_search in Hsearch. apply any_in_spec in Hsearch
      as (pattern & Hin & Hc).
    unfold product_names in Hin. apply list_elem_of_fmap in Hin as (q & -> & Hq).
    unfold _find_product_by_name in Hnone.
    rewrite find_none in Hnone. specialize (Hnone q Hq). simpl in Hnone.
    rewrite Hlower in Hnone. congruence. }
  split.
  - destruct (handle_message_reply u message self)
      as [ | | | |p| |cart Hcart|p Hp|Hs Hf|v bot| | |total]; try differ.
    now apply Hfound in Hs.
  - intros Hbtn Hroute. rewrite handle_message_eq, Hbtn, Hroute. simpl.
    rewrite handle_product_selection_eq.
    assert (Hsearch : _is_product_search (normalize message) = true).
    { unfold route in Hroute.
      destruct (_is_add_to_cart_intent _); [discriminate|].
      destruct (_is_product_search _); [reflexivity|].
      destruct (_is_view_cart_intent _); discriminate. }
    destruct (_find_product_by_name (normalize message)) as [p|] eqn:Hfind.
    + exists p. split; [now apply find_by_name_in_catalog with (normalize message)|].
      simpl. now rewrite session_of_written.
    + now apply Hfound in Hsearch.
Qed.

End Buttons2.

(** ** Carts and sessions over a conversation *)

Lemma old_cart_entry u self x :
  x ∈ cart (session_of u self) ->
  exists s, sessions self !! u = Some s /\ x ∈ cart s.
Proof.
  intros Hx. destruct (session_of_cases u self) as [Hu|Hu].
  - now exists (session_of u self).
  - rewrite Hu in Hx. now apply elem_of_nil in Hx.
Qed.

Section Carts.
Context `{PyBuiltins}.

Lemma carts_separate_step u message self :
  carts_separate self -> carts_separate (snd (handle_message u message self)).
Proof.
  intros (Halloc & Hnodup & Hcross).
  assert (Halloc' := carts_allocated_step u message self Halloc).
  destruct Halloc as [Hheap Hrange].
  destruct (handle_message_post u message self) as (_ & Hsessions & _ & Hentry).
  destruct (handle_message_cart u message self) as (_ & Hcart).
  set (self' := snd (handle_message u message self)) in *.
  assert (Hfresh : forall v t y, sessions self !! v = Some t -> y ∈ cart t ->
                                 addr y <> next_addr self).
  { intros v t y Hv Hy. specialize (Hrange v t y Hv Hy). lia. }
  split; [exact Halloc'|]. split.
  - intros v s Hv. rewrite Hsessions in Hv.
    destruct (decide (u = v)) as [<-|Huv].
    2: { rewrite lookup_insert_ne in Hv by exact Huv. now apply (Hnodup v). }
    rewrite lookup_insert_eq in Hv. injection Hv as <-.
    assert (Hold : NoDup (map addr (cart (session_of u self)))).
    { destruct (session_of_cases u self) as [Hu|Hu]; [now apply (Hnodup u)|].
      rewrite Hu. constructor. }
    destruct Hcart as [[-> _]|[[-> _]|(p & -> & _)]]; [exact Hold|constructor|].
    rewrite map_app. simpl. apply NoDup_app. split; [exact Hold|]. split.
    + intros a Ha Hnew. apply list_elem_of_singleton in Hnew as ->.
      apply list_elem_of_fmap in Ha as (y & Hy & Hin).
      destruct (old_cart_entry u self y Hin) as (t & Ht & Hyt).
      symmetry in Hy. now apply (Hfresh u t y Ht Hyt).
    + apply NoDup_singleton.
  - intros v w s t x y Hvw Hv Hw Hx Hy. rewrite Hsessions in Hv, Hw.
    destruct (decide (u = v)) as [<-|Huv]; [|destruct (decide (u = w)) as [<-|Huw]].
    + rewrite lookup_insert_eq in Hv. injection Hv as <-.
      rewrite lookup_insert_ne in Hw by exact Hvw.
      destruct (Hentry x Hx) as [Hold|(Hnew & _)].
      * destruct (old_cart_entry u self x Hold) as (s & Hs & Hxs).
        now apply (Hcross u w s t x y).
      * rewrite Hnew. intros Heq. symmetry in Heq. now apply (Hfresh w t y Hw Hy).
    + rewrite lookup_insert_eq in Hw. injection Hw as <-.
      rewrite lookup_insert_ne in Hv by exact Huv.
      destruct (Hentry y Hy) as [Hold|(Hnew & _)].
      * destruct (old_cart_entry u self y Hold) as (t & Ht & Hyt).
        now apply (Hcross v u s t x y).
      * rewrite Hnew. now apply (Hfresh v s x Hv Hx).
    + rewrite lookup_insert_ne in Hv by exact Huv.
      rewrite lookup_insert_ne in Hw by exact Huw.
      now apply (Hcross v w s t x y).
Qed.

Lemma reachable_carts_separate self : reachable self -> carts_separate self.
Proof.
  revert self. apply (reachable_invariant carts_separate).
  - split; [|split].
    + split; [reflexivity|]. intros v s x Hv. simpl in Hv.
      now rewrite lookup_empty in Hv.
    + intros v s Hv. simpl in Hv. now rewrite lookup_empty in Hv.
    + intros v w s t x y _ Hv. simpl in Hv. now rewrite lookup_empty in Hv.
  - apply carts_separate_step.
Qed.

(** X8. A message changes the cart of its sender in one of three ways
    only: not at all, by emptying it, or by appending one new copy of the
    product that is the last selected one afterwards.  Entries are never
    removed one by one, replaced or reordered. *)
Theorem cart_changes (u message : string) (self : ChatBot) :
  let before := session_of u self in
  let after := session_of u (snd (handle_message u message self)) in
  state after = state before /\
  (cart after = cart before \/
   cart after = [] \/
   exists p, last_product after = Some p /\
             cart after = (cart before ++ [mkRef (next_addr self) (obj p)])%list) /\
  (length (cart after) <= S (length (cart before)))%nat.
Proof.
  cbv zeta. destruct (handle_message_cart u message self) as (Hstate & Hcart).
  split; [exact Hstate|].
  destruct Hcart as [[Hc _]|[[Hc _]|(p & Hc & Hp & _)]]; rewrite Hc.
  - split; [now left|lia].
  - split; [right; now left|simpl; lia].
  - split; [right; right; now exists p|]. rewrite length_app. simpl. lia.
Qed.

(** X9. In every bot that a conversation leads to, no object is in two
    places of the carts: two cart positions that hold the same address
    are the same position of the same user's cart.  Every entry is a copy
    made after the catalog, so it is none of the catalog objects. *)
Theorem cart_entries_distinct (self : ChatBot) :
  reachable self ->
  addresses_distinct self /\
  (forall u s x q, sessions self !! u = Some s -> x ∈ cart s ->
                   q ∈ AVAILABLE_PRODUCTS -> addr x <> addr q).
Proof.
  intros Hreach.
  destruct (reachable_carts_separate self Hreach) as ([_ Hrange] & Hnodup & Hcross).
  split.
  - intros u v s t i j x y Hu Hv Hi Hj Haddr.
    assert (Hx : x ∈ cart s) by (apply list_elem_of_lookup; eauto).
    assert (Hy : y ∈ cart t) by (apply list_elem_of_lookup; eauto).
    destruct (decide (u = v)) as [<-|Huv].
    2: { exfalso. now apply (Hcross u v s t x y). }
    split; [reflexivity|]. rewrite Hu in Hv. injection Hv as <-.
    apply (NoDup_lookup (map addr (cart s)) i j (addr x)).
    + now apply (Hnodup u).
    + now rewrite list_lookup_fmap, Hi.
    + now rewrite list_lookup_fmap, Hj, Haddr.
  - intros u s x q Hu Hx Hq. specialize (Hrange u s x Hu Hx).
    assert (Hlt : (addr q < length AVAILABLE_PRODUCTS)%nat).
    { revert q Hq. apply catalog_cases. repeat constructor; simpl; lia. }
    lia.
Qed.

Lemma dom_handle_message u message self :
  dom (sessions (snd (handle_message u message self))) = {[u]} ∪ dom (sessions self).
Proof.
  destruct (handle_message_post u message self) as (_ & Hsessions & _).
  rewrite Hsessions at 1. apply dom_insert_L.
Qed.

Lemma state_step u message self :
  (forall v s, sessions self !! v = Some s -> state s = "browsing") ->
  forall v s, sessions (snd (handle_message u message self)) !! v = Some s ->
              state s = "browsing".
Proof.
  intros Hinv v s Hv.
  destruct (handle_message_post u message self) as (_ & Hsessions & _).
  destruct (handle_message_cart u message self) as (Hstate & _).
  rewrite Hsessions in Hv.
  destruct (decide (u = v)) as [<-|Huv].
  - rewrite lookup_insert_eq in Hv. injection Hv as <-. rewrite Hstate.
    destruct (session_of_cases u self) as [Hu|Hu]; [now apply (Hinv u)|now rewrite Hu].
  - rewrite lookup_insert_ne in Hv by exact Huv. now apply (Hinv v).
Qed.

Lemma dom_run messages self :
  dom (sessions (run messages self)) = senders messages ∪ dom (sessions self).
Proof.
  revert self. induction messages as [|[u message] rest IH]; intros self; simpl.
  - unfold senders. simpl. now rewrite (left_id_L ∅ (∪)).
  - rewrite IH, dom_handle_message. unfold senders. simpl.
    rewrite (assoc_L (∪)). f_equal. apply (comm_L (∪)).
Qed.

(** X10. Sessions are created and never deleted: after a conversation the
    users with a session are those who had one before and those who sent a
    message.  From a new bot, every session still has the state
    "browsing" that it was created with. *)
Theorem sessions_of_senders (messages : list (string * string)) (self : ChatBot) :
  dom (sessions (run messages self)) = senders messages ∪ dom (sessions self) /\
  dom (sessions (run messages new_ChatBot)) = senders messages /\
  (forall u s, sessions (run messages new_ChatBot) !! u = Some s -> state s = "browsing").
Proof.
  split; [apply dom_run|]. split.
  - rewrite dom_run. simpl. rewrite dom_empty_L. apply (right_id_L ∅ (∪)).
  - apply (run_invariant
             (fun bot => forall u s, sessions bot !! u = Some s -> state s = "browsing")).
    + intros u message bot. apply state_step.
    + intros u s Hu. simpl in Hu. now rewrite lookup_empty in Hu.
Qed.

End Carts.

(** ** How the operations compose *)

Lemma written_present u s m n :
  ensure u (mkChatBot (<[u := s]> m) n) = mkChatBot (<[u := s]> m) n.
Proof. apply ensure_present with s. simpl. apply lookup_insert_eq. Qed.

Section Composition.
Context `{PyBuiltins}.

(** X11. Adding with nothing selected: when the sender has no last
    product, as every new user, an add-to-cart text is answered by "no
    product selected" and the bot only gains the sender's session. *)
Theorem add_without_selection (u message : string) (self : ChatBot) :
  last_product (session_of u self) = None ->
  add_text message ->
  handle_message u message self = (no_product_selected, ensure u self) /\
  session_of u (ensure u self) = session_of u self /\
  add_product_to_cart u (Some 0) self = (no_product_selected, ensure u self).
Proof.
  intros Hnone [Hbtn Hadd].
  assert (Hcall : add_product_to_cart u None self = (no_product_selected, ensure u self)).
  { rewrite add_product_to_cart_eq. cbv zeta. now rewrite Hnone. }
  split; [|split; [apply session_of_ensure|now rewrite add_by_id_zero]].
  rewrite handle_message_eq, Hbtn. unfold route. now rewrite Hadd.
Qed.

(** X12. Checkout forgets the selection: after a successful checkout no
    product is selected, so an add-to-cart text is answered by "no product
    selected" and changes nothing, a second checkout fails and the cart
    view is empty. *)
Theorem after_checkout (u message : string) (self : ChatBot) :
  cart (session_of u self) <> [] ->
  add_text message ->
  let paid := snd (process_checkout u self) in
  fst (find_last_selected_product u paid) = None /\
  handle_message u message paid = (no_product_selected, paid) /\
  process_checkout u paid = (checkout_empty, paid) /\
  send_cart_confirmation_buttons u paid = (empty_cart_view, paid).
Proof.
  intros Hcart [Hbtn Hadd]. cbv zeta. rewrite process_checkout_eq.
  destruct (cart (session_of u self)) as [|item items]; [congruence|]. simpl.
  set (paid := mkChatBot _ (next_addr self)).
  assert (Hsession : session_of u paid = mkSession [] None (state (session_of u self)))
    by apply session_of_written.
  assert (Hensure : ensure u paid = paid) by apply written_present.
  split; [now rewrite find_last_selected_product_eq, Hsession|]. split; [|split].
  - rewrite handle_message_eq, Hbtn. unfold route. rewrite Hadd. simpl.
    rewrite add_product_to_cart_eq. cbv zeta. now rewrite Hsession, Hensure.
  - now rewrite process_checkout_eq, Hsession, Hensure.
  - now rewrite send_cart_confirmation_buttons_eq, Hsession, Hensure.
Qed.

(** X13. Clearing the cart always succeeds and is idempotent: clearing a
    cleared cart returns the same response and the same bot; afterwards
    the cart is empty, the last product is kept, checkout fails and the
    cart view is empty. *)
Theorem clear_cart_idempotent (u : string) (self : ChatBot) :
  let cleared := snd (clear_cart u self) in
  fst (clear_cart u self) = cart_cleared /\
  clear_cart u cleared = (cart_cleared, cleared) /\
  cart (session_of u cleared) = [] /\
  last_product (session_of u cleared) = last_product (session_of u self) /\
  process_checkout u cleared = (checkout_empty, cleared) /\
  send_cart_confirmation_buttons u cleared = (empty_cart_view, cleared).
Proof.
  cbv zeta. rewrite clear_cart_eq. simpl.
  set (cleared := mkChatBot _ (next_addr self)).
  assert (Hsession : session_of u cleared
                     = mkSession [] (last_product (session_of u self))
                         (state (session_of u self)))
    by apply session_of_written.
  assert (Hensure : ensure u cleared = cleared) by apply written_present.
  split; [reflexivity|]. split; [|split; [|split; [|split]]].
  - rewrite clear_cart_eq, Hsession. simpl. unfold cleared. simpl.
    now rewrite insert_insert_eq.
  - now rewrite Hsession.
  - now rewrite Hsession.
  - now rewrite process_checkout_eq, Hsession, Hensure.
  - now rewrite send_cart_confirmation_buttons_eq, Hsession, Hensure.
Qed.

(** X14. Viewing the cart is read-only and agrees with checkout: the view
    leaves the session as it is, it is the "empty cart" reply exactly
    when the cart is empty, and for a non-empty cart the total that it
    shows is the total that a checkout right after it reports. *)
Theorem view_cart_read_only (u : string) (self : ChatBot) :
  let view := send_cart_confirmation_buttons u self in
  let items := cart (session_of u self) in
  snd view = ensure u self /\
  session_of u (snd view) = session_of u self /\
  (forall s, sessions self !! u = Some s -> snd view = self) /\
  (fst view = empty_cart_view <-> items = []) /\
  (items <> [] ->
   exists summary total,
     response (fst view) = summary ++ "Total: $" ++ total /\
     response (fst (process_checkout u (snd view)))
     = "✅ ¡Compra realizada exitosamente!" ++ newline ++ "Total pagado: $" ++ total
       ++ newline ++ "¡Gracias por tu compra!").
Proof.
  cbv zeta. rewrite send_cart_confirmation_buttons_eq. simpl.
  split; [reflexivity|]. split; [apply session_of_ensure|].
  split; [intros s Hs; now apply ensure_present with s|].
  rewrite process_checkout_ensure, process_checkout_eq.
  destruct (cart (session_of u self)) as [|item items] eqn:Hcart.
  - split; [tauto|congruence].
  - split.
    + split; [|congruence]. intros Heq. apply (f_equal buttons) in Heq.
      simpl in Heq. discriminate Heq.
    + intros _.
      exists ("🛒 Tu carrito (" ++ str_int (Z.of_nat (length (item :: items)))
              ++ " items):" ++ newline
              ++ join newline (map item_line (group_items (item :: items)))
              ++ newline ++ newline),
        (format_2f (total_price (item :: items))).
      split; [|reflexivity]. simpl response. unfold cart_summary.
      now rewrite !append_assoc.
Qed.

(** X15. Search, then add: a message routed to the product search that
    finds [p] selects [p] without touching the cart and offers the add
    button of [p]; repeating the search changes nothing more, and the
    offered button, like an add-to-cart text, then appends a copy of [p]. *)
Theorem search_then_add (u message : string) (p : ProductRef) (self : ChatBot) :
  startswith "btn_" message = false ->
  route (normalize message) = RouteSearch ->
  _find_product_by_name (normalize message) = Some p ->
  let found := handle_message u message self in
  fst found = product_details p /\
  offered (fst found) = [add_button p; "btn_browse"] /\
  fst (find_last_selected_product u (snd found)) = Some p /\
  cart (session_of u (snd found)) = cart (session_of u self) /\
  handle_message u message (snd found) = found /\
  (forall request,
     request = add_button p \/ add_text request ->
     let added := handle_message u request (snd found) in
     fst added = product_added p /\
     cart (session_of u (snd added))
     = (cart (session_of u self) ++ [mkRef (next_addr self) (obj p)])%list).
Proof.
  intros Hbtn Hroute Hfind. cbv zeta.
  assert (Hp : p ∈ AVAILABLE_PRODUCTS)
    by now apply find_by_name_in_catalog with (normalize message).
  assert (Hfound : forall bot,
            handle_message u message bot
            = (product_details p,
               mkChatBot
                 (<[u := mkSession (cart (session_of u bot)) (Some p)
                           (state (session_of u bot))]> (sessions bot))
                 (next_addr bot))).
  { intros bot. rewrite handle_message_eq, Hbtn, Hroute. simpl.
    now rewrite handle_product_selection_eq, Hfind. }
  rewrite (Hfound self). simpl.
  set (found := mkChatBot _ (next_addr self)).
  assert (Hsession : session_of u found
                     = mkSession (cart (session_of u self)) (Some p)
                         (state (session_of u self)))
    by apply session_of_written.
  split; [reflexivity|]. split; [reflexivity|].
  split; [now rewrite find_last_selected_product_eq, Hsession|].
  split; [now rewrite Hsession|]. split.
  - rewrite (Hfound found), Hsession. simpl. unfold found. simpl.
    now rewrite insert_insert_eq.
  - intros request Hrequest.
    assert (Hadded : handle_message u request found
              = (product_added p,
                 mkChatBot
                   (<[u := mkSession
                             (cart (session_of u found)
                              ++ [mkRef (next_addr found) (obj p)])
                             (Some p) (state (session_of u found))]> (sessions found))
                   (S (next_addr found)))).
    { destruct Hrequest as [->|Htext].
      - now destruct (handle_add_button u p found Hp) as [_ ->].
      - assert (Hlast : last_product (session_of u found) = Some p)
          by now rewrite Hsession.
        now destruct (handle_add_text u request p found Htext Hlast) as [_ ->]. }
    rewrite Hadded. simpl. rewrite session_of_written, Hsession. now split.
Qed.

(** X16. Browse, then add: the browse button changes nothing and offers
    one add button per catalog product, in catalog order, labelled with
    name and price; pressing the button of a product appends a copy of
    that very product and makes it the last selected one. *)
Theorem browse_then_add (u : string) (self : ChatBot) :
  let shown := handle_message u "btn_browse" self in
  snd shown = ensure u self /\
  offered (fst shown) = map add_button AVAILABLE_PRODUCTS /\
  (forall btns, buttons (fst shown) = Some btns ->
     map text btns
     = map (fun p => name (obj p) ++ " - $" ++ format_2f (price (obj p))) AVAILABLE_PRODUCTS) /\
  (forall p, p ∈ AVAILABLE_PRODUCTS ->
     let added := handle_message u (add_button p) (snd shown) in
     fst added = product_added p /\
     cart (session_of u (snd added))
     = (cart (session_of u self) ++ [mkRef (next_addr self) (obj p)])%list /\
     last_product (session_of u (snd added)) = Some p).
Proof.
  cbv zeta.
  assert (Hshown : handle_message u "btn_browse" self
                   = show_products u (ensure u self)).
  { rewrite handle_message_eq, handle_button_press_eq. reflexivity. }
  rewrite Hshown. simpl.
  split; [reflexivity|]. split; [reflexivity|]. split.
  - intros btns [= <-]. reflexivity.
  - intros p Hp. destruct (handle_add_button u p (ensure u self) Hp) as [_ ->].
    simpl. rewrite session_of_written, session_of_ensure, next_addr_ensure.
    now repeat split.
Qed.

End Composition.

(** ** The command-line loop *)

Section MainLoop.
Context `{PyBuiltins}.

Lemma main_loop_run lines bot :
  exists out,
    main_loop lines bot
    = (out, run (messages_of lines) bot,
       if existsb quits lines then Quit else EndOfInput).
Proof.
  revert bot. induction lines as [|line rest IH]; intros bot.
  - now exists [prompt].
  - cbn [main_loop messages_of existsb]. unfold quits at 1 2.
    destruct (existsb (String.eqb (str_lower (str_strip line))) quit_words).
    + now eexists.
    + cbn [orb]. destruct (str_strip line) as [|c message] eqn:Hline.
      * destruct (IH bot) as [out ->]. now eexists.
      * destruct (handle_message "test_user" (String c message) bot)
          as [r bot'] eqn:Hstep.
        destruct (IH bot') as [out ->].
        eexists. cbn [run]. now rewrite Hstep.
Qed.

Lemma main_loop_stops before line after bot :
  quits line = true ->
  main_loop (before ++ line :: after) bot = main_loop (before ++ [line]) bot.
Proof.
  intros Hquit. revert bot. induction before as [|first before IH]; intros bot.
  - cbn [app main_loop]. unfold quits in Hquit. now rewrite Hquit.
  - cbn [app main_loop].
    destruct (existsb (String.eqb (str_lower (str_strip first))) quit_words);
      [reflexivity|].
    destruct (str_strip first) as [|c message]; [now rewrite IH|].
    destruct (handle_message "test_user" (String c message) bot) as [r bot'].
    now rewrite IH.
Qed.

Lemma messages_of_test_user lines :
  Forall (fun '(u, message) => u = "test_user" /\ message <> "") (messages_of lines).
Proof.
  induction lines as [|line rest IH]; cbn [messages_of]; [constructor|].
  destruct (quits line); [constructor|].
  destruct (str_strip line) as [|c message]; [exact IH|].
  constructor; [split; [reflexivity|discriminate]|exact IH].
Qed.

Lemma senders_messages_of lines : senders (messages_of lines) ⊆ {["test_user"]}.
Proof.
  pose proof (messages_of_test_user lines) as Hall. unfold senders.
  induction Hall as [|[u message] rest [-> _] _ IH]; simpl.
  - apply empty_subseteq.
  - apply union_least; [reflexivity|exact IH].
Qed.

(** X17. The command-line loop feeds the bot the stripped, non-empty lines
    that come before the first quit word, all as user [test_user], and
    nothing else: blank lines never reach the bot, lines after a quit word
    are never read, the loop ends by quitting exactly when some line is a
    quit word, and no other user ever gets a session. *)
Theorem main_runs_the_lines (lines : list string) :
  (exists out,
     main lines
     = (out, run (messages_of lines) new_ChatBot,
        if existsb quits lines then Quit else EndOfInput)) /\
  Forall (fun '(u, message) => u = "test_user" /\ message <> "") (messages_of lines) /\
  (forall before line after,
     quits line = true -> main (before ++ line :: after) = main (before ++ [line])) /\
  (forall out bot ending,
     main lines = (out, bot, ending) -> dom (sessions bot) ⊆ {["test_user"]}).
Proof.
  assert (Hmain : exists out,
            main lines
            = (out, run (messages_of lines) new_ChatBot,
               if existsb quits lines then Quit else EndOfInput)).
  { unfold main. destruct (main_loop_run lines new_ChatBot) as [out ->]. now eexists. }
  split; [exact Hmain|]. split; [apply messages_of_test_user|]. split.
  - intros before line after Hquit. unfold main.
    now rewrite (main_loop_stops before line after new_ChatBot Hquit).
  - intros out bot ending Heq. destruct Hmain as [out' Hmain].
    rewrite Hmain in Heq. injection Heq as _ <- _.
    rewrite dom_run. simpl. rewrite dom_empty_L, (right_id_L ∅ (∪)).
    apply senders_messages_of.
Qed.

End MainLoop.

(** ** More worked conversations *)


Lemma offered_callbacks_handled_witness :
  "btn_add_1" ∈ offered (fst (handle_message "ana" "laptop" new_ChatBot)) /\
  fst (handle_message "bob" "btn_add_1" new_ChatBot) <> button_error.
Proof.
  assert (Hc : "btn_add_1" ∈ offered (fst (handle_message "ana" "laptop" new_ChatBot)))
    by (apply list_elem_of_In; vm_compute; auto).
  split; [exact Hc|].
  destruct (offered_callbacks_handled "ana" "laptop" "btn_add_1" new_ChatBot Hc)
    as [_ Hhandled].
  exact (proj1 (Hhandled "bob" new_ChatBot)).
Defined.

Lemma product_not_found_unreachable_witness :
  str_lower (normalize "laptop") = normalize "laptop" /\
  fst (handle_message "ana" "laptop" new_ChatBot) <> product_not_found.
Proof.
  assert (Hlower : str_lower (normalize "laptop") = normalize "laptop")
    by (vm_compute; reflexivity).
  split; [exact Hlower|].
  exact (proj1 (product_not_found_unreachable "ana" "laptop" new_ChatBot Hlower)).
Defined.

Lemma cart_entries_distinct_witness :
  let self := run [("ana", "btn_add_1"); ("bob", "btn_add_1")] new_ChatBot in
  reachable self /\ addresses_distinct self.
Proof.
  cbv zeta.
  assert (Hreach : reachable (run [("ana", "btn_add_1"); ("bob", "btn_add_1")] new_ChatBot))
    by (exists [("ana", "btn_add_1"); ("bob", "btn_add_1")]; reflexivity).
  split; [exact Hreach|].
  exact (proj1 (cart_entries_distinct _ Hreach)).
Defined.

Lemma add_without_selection_witness :
  last_product (session_of "ana" new_ChatBot) = None /\
  fst (handle_message "ana" "agregar al carrito" new_ChatBot) = no_product_selected.
Proof.
  assert (Hnone : last_product (session_of "ana" new_ChatBot) = None) by reflexivity.
  assert (Htext : add_text "agregar al carrito") by (split; vm_compute; reflexivity).
  split; [exact Hnone|].
  destruct (add_without_selection "ana" "agregar al carrito" new_ChatBot Hnone Htext)
    as [-> _].
  reflexivity.
Defined.

Lemma after_checkout_witness :
  let self := run [("ana", "btn_add_1")] new_ChatBot in
  let paid := snd (process_checkout "ana" self) in
  cart (session_of "ana" self) <> [] /\
  fst (handle_message "ana" "agregar" paid) = no_product_selected.
Proof.
  cbv zeta.
  assert (Hcart : cart (session_of "ana" (run [("ana", "btn_add_1")] new_ChatBot)) <> [])
    by (vm_compute; discriminate).
  assert (Htext : add_text "agregar") by (split; vm_compute; reflexivity).
  split; [exact Hcart|].
  destruct (after_checkout "ana" "agregar" _ Hcart Htext) as (_ & -> & _).
  reflexivity.
Defined.

Lemma search_then_add_witness :
  route (normalize "laptop") = RouteSearch /\
  _find_product_by_name (normalize "laptop") = Some laptop /\
  let found := handle_message "ana" "laptop" new_ChatBot in
  fst (handle_message "ana" "btn_add_1" (snd found)) = product_added laptop.
Proof.
  assert (Hbtn : startswith "btn_" "laptop" = false) by reflexivity.
  assert (Hroute : route (normalize "laptop") = RouteSearch) by (vm_compute; reflexivity).
  assert (Hfind : _find_product_by_name (normalize "laptop") = Some laptop)
    by (vm_compute; reflexivity).
  split; [exact Hroute|]. split; [exact Hfind|]. cbv zeta.
  destruct (search_then_add "ana" "laptop" laptop new_ChatBot Hbtn Hroute Hfind)
    as (_ & _ & _ & _ & _ & Hadd).
  exact (proj1 (Hadd "btn_add_1" (or_introl eq_refl))).
Defined.
